(** * Suna Mac tooling: service manager, setup wizard and deployment tests

    A shallow embedding of [start_mac.py], [setup_mac.py] and
    [test_mac_deployment.py].  Python procedures become functions in a small
    state-and-exception monad over an explicit world: the outcomes of
    external commands and HTTP probes are oracles of the world, and every
    observable action (a spawned command, a sleep, a probe, a printed line)
    is appended to the world's log. *)

From Stdlib Require Import ZArith Ascii String Lia Sorted.
From stdpp Require Import base option list strings pretty gmap sorting.

Local Open Scope string_scope.

(** ** The Python runtime the scripts rely on *)

Module Py.

(** Exceptions the scripts raise, catch or let through. *)
Inductive exn :=
| CalledProcessError
| FileNotFoundError
| JSONDecodeError
| URLError
| KeyError (key : string)
| KeyboardInterrupt
| SystemExit (code : Z)
| OtherError (what : string).

(** [except Exception] catches everything but the two [BaseException]s. *)
Definition is_Exception (e : exn) : bool :=
  match e with
  | KeyboardInterrupt | SystemExit _ => false
  | _ => true
  end.

Inductive res (A : Type) :=
| Val (a : A)
| Exc (e : exn).
Arguments Val {A} a.
Arguments Exc {A} e.

(** What [subprocess.run] meets: the command ran and exited, or starting it
    raised ([FileNotFoundError] when the binary is not on the system). *)
Inductive proc_result :=
| Exited (returncode : Z) (stdout : string)
| Raises (e : exn).

(** What an HTTP probe meets: a final status code, or no answer at all. *)
Inductive http_result :=
| Status (code : Z)
| Fails (e : exn).

Inductive level := Plain | Info | Success | Warning | Error.

(** The two things a script does to a file, and the one it could do. *)
Inductive fsop :=
| Truncate (path : string)
| Append (path : string) (data : string)
| Rename (src dst : string).

Inductive event :=
| Spawn (argv : list string) (r : proc_result)
| Sleep (secs : Z)
| UrlOpen (url : string) (timeout : Z) (r : http_result)
| Out (lvl : level) (msg : string)
| StepHeader (n total : Z) (title : string)
| FsOp (op : fsop)
| Traceback (e : exn).

(** The world outside the interpreter.  Oracles take the number of events
    logged so far, so the same command may fail now and succeed later. *)
Record World := {
  platform_system : string;
  spawn_result : nat -> list string -> proc_result;
  http_result_at : nat -> string -> http_result;
  files : gmap string string;
  writable : string -> bool;
  json_loads : string -> option (list (list (string * string)));
  format_gb : string -> option string;
  docker_info_lines : string -> option (list string);
  docker_resources_report : string -> option (list (level * string));
  log : list event
}.

Definition with_log (l : list event) (w : World) : World :=
  {| platform_system := platform_system w;
     spawn_result := spawn_result w; http_result_at := http_result_at w;
     files := files w; writable := writable w; json_loads := json_loads w;
     format_gb := format_gb w; docker_info_lines := docker_info_lines w;
     docker_resources_report := docker_resources_report w;
     log := l |}.

Definition with_files (fs : gmap string string) (w : World) : World :=
  {| platform_system := platform_system w;
     spawn_result := spawn_result w; http_result_at := http_result_at w;
     files := fs; writable := writable w; json_loads := json_loads w;
     format_gb := format_gb w; docker_info_lines := docker_info_lines w;
     docker_resources_report := docker_resources_report w;
     log := log w |}.

(** The world after more events. *)
Definition grown (w : World) (evs : list event) : World :=
  with_log (log w ++ evs) w.

(** A procedure with object state [S]. *)
Definition Py (S A : Type) : Type := S -> World -> S * World * res A.

Definition ret {S A} (a : A) : Py S A := fun s w => (s, w, Val a).

Definition bind {S A B} (m : Py S A) (f : A -> Py S B) : Py S B :=
  fun s w =>
    match m s w with
    | (s', w', Val a) => f a s' w'
    | (s', w', Exc e) => (s', w', Exc e)
    end.

Definition raise {S A} (e : exn) : Py S A := fun s w => (s, w, Exc e).

(** [try: body  except <clauses>]: [handler e] is [None] when no clause
    matches [e], which then propagates. *)
Definition try_except {S A} (body : Py S A) (handler : exn -> option (Py S A))
  : Py S A :=
  fun s w =>
    match body s w with
    | (s', w', Exc e) =>
        match handler e with
        | Some h => h s' w'
        | None => (s', w', Exc e)
        end
    | r => r
    end.

Definition get_self {S} : Py S S := fun s w => (s, w, Val s).
Definition set_self {S} (s' : S) : Py S unit := fun _ w => (s', w, Val tt).
Definition ask {S} : Py S World := fun s w => (s, w, Val w).

Definition emit {S} (ev : event) : Py S unit :=
  fun s w => (s, grown w [ev], Val tt).

Definition print {S} (msg : string) : Py S unit := emit (Out Plain msg).
Definition print_info {S} (msg : string) : Py S unit := emit (Out Info msg).
Definition print_success {S} (msg : string) : Py S unit := emit (Out Success msg).
Definition print_warning {S} (msg : string) : Py S unit := emit (Out Warning msg).
Definition print_error {S} (msg : string) : Py S unit := emit (Out Error msg).

Definition sleep {S} (secs : Z) : Py S unit := emit (Sleep secs).

Definition sys_exit {S A} (code : Z) : Py S A := raise (SystemExit code).

(** [subprocess.run(argv, check=check)]: returns the captured stdout. *)
Definition subprocess_run {S} (cmd : list string) (check : bool) : Py S string :=
  fun s w =>
    let r := spawn_result w (length (log w)) cmd in
    let w' := grown w [Spawn cmd r] in
    match r with
    | Raises e => (s, w', Exc e)
    | Exited rc out =>
        if check && negb (rc =? 0)%Z then (s, w', Exc CalledProcessError)
        else (s, w', Val out)
    end.

(** [urllib.request.urlopen(url, timeout=t)]: a response comes back only
    for a 2xx final status; any other status raises [HTTPError], a
    [URLError]. The value is [response.getcode()]. *)
Definition urlopen {S} (url : string) (timeout : Z) : Py S Z :=
  fun s w =>
    let r := http_result_at w (length (log w)) url in
    let w' := grown w [UrlOpen url timeout r] in
    match r with
    | Fails e => (s, w', Exc e)
    | Status c =>
        if (200 <=? c)%Z && (c <? 300)%Z then (s, w', Val c)
        else (s, w', Exc URLError)
    end.

Definition os_path_exists {S} (p : string) : Py S bool :=
  fun s w => (s, w, Val (bool_decide (is_Some (files w !! p)))).

(** What one file operation leaves on disk. *)
Definition apply_op (op : fsop) (fs : gmap string string) : gmap string string :=
  match op with
  | Truncate p => <[p := EmptyString]> fs
  | Append p data => <[p := default EmptyString (fs !! p) +:+ data]> fs
  | Rename src dst =>
      match fs !! src with
      | Some data => <[dst := data]> (delete src fs)
      | None => fs
      end
  end.

Definition replay (ops : list fsop) (fs : gmap string string) : gmap string string :=
  foldl (fun acc op => apply_op op acc) fs ops.

Definition do_op {S} (op : fsop) : Py S unit :=
  fun s w =>
    (s, with_files (apply_op op (files w)) (grown w [FsOp op]), Val tt).

(** [with open(path, "w") as f: f.write(content)]: opening truncates the
    file in place, the text follows when the buffer is flushed. *)
Definition write_text {S} (path content : string) : Py S unit :=
  fun s w =>
    if writable w path
    then bind (do_op (Truncate path)) (fun _ => do_op (Append path content)) s w
    else (s, w, Exc (OtherError "OSError")).

(** Running a script to the end: the exit status the shell sees. *)
Definition run_script {S} (m : Py S unit) (s : S) (w : World) : World * Z :=
  match m s w with
  | (_, w', Val _) => (w', 0%Z)
  | (_, w', Exc (SystemExit c)) => (w', c)
  | (_, w', Exc KeyboardInterrupt) =>
      (grown w' [Traceback KeyboardInterrupt], 130%Z)
  | (_, w', Exc e) => (grown w' [Traceback e], 1%Z)
  end.

(** [str.strip()] for the ASCII whitespace characters. *)
Definition is_space (c : ascii) : bool :=
  let n := nat_of_ascii c in
  (n =? 32)%nat || ((9 <=? n)%nat && (n <=? 13)%nat)
  || ((28 <=? n)%nat && (n <=? 31)%nat).

Fixpoint lstrip (s : string) : string :=
  match s with
  | String c s' => if is_space c then lstrip s' else s
  | EmptyString => EmptyString
  end.

Fixpoint rstrip (s : string) : string :=
  match s with
  | String c s' =>
      match rstrip s' with
      | EmptyString => if is_space c then EmptyString else String c EmptyString
      | t => String c t
      end
  | EmptyString => EmptyString
  end.

Definition strip (s : string) : string := rstrip (lstrip s).

(** Text pieces of the printed messages. *)
Definition nl : string := String (ascii_of_nat 10) EmptyString.

Fixpoint str_repeat (s : string) (n : nat) : string :=
  match n with
  | O => EmptyString
  | S n' => s +:+ str_repeat s n'
  end.

(** [f"{e}"] for a caught exception; the class name stands for the text. *)
Definition str_exn (e : exn) : string :=
  match e with
  | CalledProcessError => "CalledProcessError"
  | FileNotFoundError => "FileNotFoundError"
  | JSONDecodeError => "JSONDecodeError"
  | URLError => "URLError"
  | KeyError k => k
  | KeyboardInterrupt => "KeyboardInterrupt"
  | SystemExit _ => "SystemExit"
  | OtherError what => what
  end.

Definition spawns (l : list event) : list (list string * proc_result) :=
  omap (fun ev => match ev with Spawn a r => Some (a, r) | _ => None end) l.

Definition sleeps (l : list event) : list Z :=
  omap (fun ev => match ev with Sleep n => Some n | _ => None end) l.

(** The events a run added to the log. *)
Definition news (w w' : World) : list event :=
  drop (length (log w)) (log w').

(** Whether an error line or a traceback is among the events. *)
Definition printed_error (evs : list event) : bool :=
  existsb (fun ev => match ev with
                     | Out Error _ | Traceback _ => true
                     | _ => false
                     end) evs.

(** The command ran and exited with status 0. *)
Definition exited_ok (r : proc_result) : bool :=
  match r with
  | Exited rc _ => (rc =? 0)%Z
  | Raises _ => false
  end.

(** The probe came back with a 2xx status. *)
Definition answered_2xx (r : http_result) : bool :=
  match r with
  | Status c => (200 <=? c)%Z && (c <? 300)%Z
  | Fails _ => false
  end.

Definition fs_ops (l : list event) : list fsop :=
  omap (fun ev => match ev with FsOp op => Some op | _ => None end) l.

Definition probes (l : list event) : list (string * http_result) :=
  omap (fun ev => match ev with UrlOpen u _ r => Some (u, r) | _ => None end) l.

(** The probe came back with status 200. *)
Definition answered_200 (r : http_result) : bool :=
  match r with
  | Status c => (c =? 200)%Z
  | Fails _ => false
  end.

(** The exception a probe raises, if any. *)
Definition probe_exn (r : http_result) : option exn :=
  match r with
  | Status c => if (200 <=? c)%Z && (c <? 300)%Z then None else Some URLError
  | Fails e => Some e
  end.

(** No command is cut short by a [sys.exit] of a signal handler. *)
Definition quiet (w : World) : Prop :=
  forall t cmd c, spawn_result w t cmd <> Raises (SystemExit c).

(** A procedure that only adds to the log and never raises [SystemExit]
    in a quiet world. *)
Definition tame {S A} (m : Py S A) : Prop :=
  forall s w, quiet w ->
    exists s' evs r,
      m s w = (s', grown w evs, r) /\ forall c, r <> Exc (SystemExit c).


(** A procedure that leaves its object and the files as they are: all it
    does is add to the log. *)
Definition log_only {S A} (m : Py S A) : Prop :=
  forall s w, exists evs r, m s w = (s, grown w evs, r).

End Py.

Import Py.

#[export] Instance Py_ret {S} : MRet (Py S) := fun _ a => ret a.
#[export] Instance Py_bind {S} : MBind (Py S) := fun _ _ f m => bind m f.

(** ** [start_mac.py]: the service manager *)

Module StartMac.

Record Manager := {
  is_apple_silicon : bool;
  docker_platform : string;
  compose_file : string;
  running_processes : list string
}.

Definition set_compose_file (f : string) (m : Manager) : Manager :=
  {| is_apple_silicon := is_apple_silicon m;
     docker_platform := docker_platform m;
     compose_file := f;
     running_processes := running_processes m |}.

Definition docker_info_cmd : list string := ["docker"; "info"].
Definition compose (cf : string) (args : list string) : list string :=
  ["docker"; "compose"; "-f"; cf] ++ args.

(** [detect_apple_silicon]: the bare [except] swallows every exception. *)
Definition detect_apple_silicon {S} : Py S bool :=
  try_except
    (out ← subprocess_run ["uname"; "-m"] false;
     mret (String.eqb (strip out) "arm64"))
    (fun _ => Some (mret false)).

(** [__init__]; installing the two signal handlers leaves no event. *)
Definition init : Py unit Manager :=
  arm ← detect_apple_silicon;
  mret {| is_apple_silicon := arm;
          docker_platform := if arm then "linux/arm64" else "linux/amd64";
          compose_file := "docker-compose.mac.yaml";
          running_processes := [] |}.

Definition arch_info (m : Manager) : string :=
  if is_apple_silicon m then "Apple Silicon (ARM64)" else "Intel (x86_64)".

(** [print_banner]: the block-letter logo is left out of the text. *)
Definition print_banner : Py Manager unit :=
  m ← get_self;
  print ("Mac Service Manager" +:+ nl +:+ "Architecture: " +:+ arch_info m).

(** The [for i in range(30)] loop; [true] when it left through [break],
    [false] when it ran into its [else] clause. *)
Fixpoint wait_for_docker {S} (n : nat) : Py S bool :=
  match n with
  | O => mret false
  | S n' =>
      up ← try_except
             (subprocess_run docker_info_cmd true;;
              print_success "Docker Desktop is now running";;
              mret true)
             (fun e => match e with
                       | CalledProcessError =>
                           Some (sleep 2;; print ".";; mret false)
                       | _ => None
                       end);
      if up : bool then mret true else wait_for_docker n'
  end.

(** The Docker part of [check_prerequisites]: [Some false] is its
    [return False], [None] falls through to the file checks. *)
Definition check_docker : Py Manager (option bool) :=
  try_except
    (subprocess_run docker_info_cmd true;;
     print_success "Docker Desktop is running";;
     mret None)
    (fun e =>
       match e with
       | CalledProcessError =>
           Some
             (print_error "Docker Desktop is not running";;
              print_info "Starting Docker Desktop...";;
              try_except
                (subprocess_run ["open"; "/Applications/Docker.app"] true;;
                 print_info "Waiting for Docker Desktop to start...";;
                 up ← wait_for_docker 30;
                 if up : bool then mret None
                 else print_error "Docker Desktop failed to start";;
                      mret (Some false))
                (fun e' =>
                   match e' with
                   | CalledProcessError =>
                       Some (print_error "Failed to start Docker Desktop";;
                             mret (Some false))
                   | _ => None
                   end))
       | _ => None
       end).

Definition check_prerequisites : Py Manager bool :=
  print_info "Checking prerequisites...";;
  early ← check_docker;
  match early with
  | Some b => mret b
  | None =>
      m ← get_self;
      found ← os_path_exists (compose_file m);
      (if found : bool then mret tt
       else print_warning (compose_file m +:+ " not found, using docker-compose.yaml");;
            set_self (set_compose_file "docker-compose.yaml" m));;
      be ← os_path_exists "backend/.env";
      if negb be then
        print_error "backend/.env not found. Run setup_mac.py first.";;
        mret false
      else
        fe ← os_path_exists "frontend/.env.local";
        if negb fe then
          print_error "frontend/.env.local not found. Run setup_mac.py first.";;
          mret false
        else mret true
  end.

Definition services : list (string * string) :=
  [("Frontend", "http://localhost:3000");
   ("Backend", "http://localhost:8000/health")].

(** One pass of the loop in [check_service_health]. *)
Definition check_one (s : string * string) : Py Manager unit :=
  try_except
    (urlopen s.2 10;; print_success (s.1 +:+ " is healthy"))
    (fun e =>
       if is_Exception e
       then Some (print_warning (s.1 +:+ " is not responding: " +:+ str_exn e))
       else None).

Fixpoint for_each {S A} (f : A -> Py S unit) (l : list A) : Py S unit :=
  match l with
  | [] => mret tt
  | x :: l' => f x;; for_each f l'
  end.

Definition check_service_health : Py Manager unit :=
  print_info "Checking service health...";;
  for_each check_one services.

Definition start_services : Py Manager bool :=
  print_info "Starting Suna services...";;
  try_except
    (m ← get_self;
     print_info "Pulling latest images...";;
     subprocess_run (compose (compose_file m) ["pull"]) true;;
     print_info "Starting containers...";;
     subprocess_run (compose (compose_file m) ["up"; "-d"]) true;;
     print_success "Services started successfully";;
     print_info "Waiting for services to be ready...";;
     sleep 10;;
     check_service_health;;
     mret true)
    (fun e =>
       match e with
       | CalledProcessError =>
           Some (print_error ("Failed to start services: " +:+ str_exn e);;
                 mret false)
       | _ => None
       end).

Definition stop_services : Py Manager bool :=
  print_info "Stopping Suna services...";;
  try_except
    (m ← get_self;
     subprocess_run (compose (compose_file m) ["down"]) true;;
     print_success "Services stopped successfully";;
     mret true)
    (fun e =>
       match e with
       | CalledProcessError =>
           Some (print_error ("Failed to stop services: " +:+ str_exn e);;
                 mret false)
       | _ => None
       end).

Definition restart_services : Py Manager bool :=
  print_info "Restarting Suna services...";;
  stopped ← stop_services;
  if stopped : bool then sleep 2;; start_services
  else mret false.

(** The handler installed for SIGINT and SIGTERM. *)
Definition signal_handler : Py Manager unit :=
  print (nl +:+ nl +:+ "Received shutdown signal. Stopping services...");;
  stop_services;;
  sys_exit 0.

Definition get_service_status : Py Manager (list (list (string * string))) :=
  try_except
    (m ← get_self;
     out ← subprocess_run (compose (compose_file m) ["ps"; "--format"; "json"]) true;
     w ← ask;
     match strip out with
     | EmptyString => mret []
     | _ =>
         match json_loads w out with
         | Some svcs => mret svcs
         | None => raise JSONDecodeError
         end
     end)
    (fun e =>
       match e with
       | CalledProcessError | JSONDecodeError => Some (mret [])
       | _ => None
       end).

(** [service.get(key, 'Unknown')] *)
Fixpoint dict_get_default (key : string) (d : list (string * string)) : string :=
  match d with
  | [] => "Unknown"
  | (k, v) :: d' => if String.eqb k key then v else dict_get_default key d'
  end.

Definition show_status : Py Manager unit :=
  print_info "Service Status:";;
  print (str_repeat "-" 50);;
  svcs ← get_service_status;
  match svcs with
  | [] => print_warning "No services are running"
  | _ =>
      for_each
        (fun service =>
           let name := dict_get_default "Name" service in
           let state := dict_get_default "State" service in
           let status := dict_get_default "Status" service in
           let line := name +:+ ": " +:+ state +:+ " (" +:+ status +:+ ")" in
           if String.eqb state "running" then print_success line
           else print_warning line)
        svcs;;
      print (str_repeat "-" 50);;
      check_service_health
  end.

Definition truthy (service : option string) : option string :=
  match service with
  | Some EmptyString | None => None
  | Some s => Some s
  end.

Definition show_logs (service : option string) (follow : bool) : Py Manager unit :=
  m ← get_self;
  let cmd := (compose (compose_file m) ["logs"]
              ++ (if follow then ["-f"] else [])
              ++ (match truthy service with Some s => [s] | None => [] end))%list in
  try_except
    (if follow then
       print_info ("Following logs for " +:+ default "all services" (truthy service)
                   +:+ ". Press Ctrl+C to stop.");;
       subprocess_run cmd false;;
       mret tt
     else
       out ← subprocess_run cmd true;
       print out)
    (fun e =>
       match e with
       | CalledProcessError =>
           Some (print_error ("Failed to get logs: " +:+ str_exn e))
       | KeyboardInterrupt => Some (print (nl +:+ "Stopped following logs."))
       | _ => None
       end).

Definition open_browser : Py Manager unit :=
  try_except
    (subprocess_run ["open"; "http://localhost:3000"] true;;
     print_success "Opened Suna in browser")
    (fun e =>
       match e with
       | CalledProcessError => Some (print_error "Failed to open browser")
       | _ => None
       end).

(** [show_system_info]: the number formatting is left to the world's
    [format_gb] and [docker_info_lines]; [None] stands for the parse
    raising inside the bare [except]. *)
Definition show_system_info : Py Manager unit :=
  print_info "Mac System Information:";;
  print (str_repeat "-" 50);;
  try_except
    (out ← subprocess_run ["sw_vers"; "-productVersion"] false;
     print ("macOS Version: " +:+ strip out))
    (fun _ => Some (print "macOS Version: Unknown"));;
  m ← get_self;
  print ("Architecture: " +:+ arch_info m);;
  try_except
    (out ← subprocess_run ["sysctl"; "hw.memsize"] false;
     w ← ask;
     match format_gb w out with
     | Some gb => print ("Total Memory: " +:+ gb +:+ " GB")
     | None => raise (OtherError "ValueError")
     end)
    (fun _ => Some (print "Total Memory: Unknown"));;
  try_except
    (out ← subprocess_run ["docker"; "system"; "info"; "--format"; "json"] true;
     w ← ask;
     match docker_info_lines w out with
     | Some lines => for_each print lines
     | None => raise JSONDecodeError
     end)
    (fun _ => Some (print "Docker Info: Not available"));;
  print (str_repeat "-" 50).

Definition cleanup_docker : Py Manager unit :=
  print_info "Cleaning up Docker resources...";;
  try_except
    (subprocess_run ["docker"; "system"; "prune"; "-f"] true;;
     print_success "Docker cleanup completed")
    (fun e =>
       match e with
       | CalledProcessError =>
           Some (print_error ("Docker cleanup failed: " +:+ str_exn e))
       | _ => None
       end).

(** [Colors.BOLD], [Colors.CYAN] and [Colors.ENDC], which the usage text
    holds between its lines. *)
Definition BOLD : string := String "027"%char "[1m".
Definition CYAN : string := String "027"%char "[96m".
Definition ENDC : string := String "027"%char "[0m".

(** The usage text printed by [show_help]. *)
Definition usage : string :=
  nl +:+ BOLD +:+ "Suna Mac Service Manager" +:+ ENDC +:+ nl +:+
  nl +:+ CYAN +:+ "Usage:" +:+ ENDC +:+ nl +:+
  "  python start_mac.py [command]" +:+ nl +:+
  nl +:+ CYAN +:+ "Commands:" +:+ ENDC +:+ nl +:+
  "  start     Start all Suna services (default)" +:+ nl +:+
  "  stop      Stop all Suna services" +:+ nl +:+
  "  restart   Restart all Suna services" +:+ nl +:+
  "  status    Show service status" +:+ nl +:+
  "  logs      Show service logs" +:+ nl +:+
  "  follow    Follow service logs in real-time" +:+ nl +:+
  "  open      Open Suna in browser" +:+ nl +:+
  "  info      Show system information" +:+ nl +:+
  "  cleanup   Clean up Docker resources" +:+ nl +:+
  "  help      Show this help message" +:+ nl +:+
  nl +:+ CYAN +:+ "Examples:" +:+ ENDC +:+ nl +:+
  "  python start_mac.py              # Start services" +:+ nl +:+
  "  python start_mac.py status       # Check status" +:+ nl +:+
  "  python start_mac.py logs backend # Show backend logs" +:+ nl +:+
  "  python start_mac.py follow       # Follow all logs" +:+ nl +:+
  "  python start_mac.py cleanup      # Clean up Docker" +:+ nl +:+
  nl +:+ CYAN +:+ "Mac-Specific Features:" +:+ ENDC +:+ nl +:+
  "  • Automatic Docker Desktop startup" +:+ nl +:+
  "  • Architecture detection (Intel/Apple Silicon)" +:+ nl +:+
  "  • Optimized resource allocation" +:+ nl +:+
  "  • Mac-specific health checks" +:+ nl +:+
  nl +:+ CYAN +:+ "Troubleshooting:" +:+ ENDC +:+ nl +:+
  "  • If services fail to start, check Docker Desktop" +:+ nl +:+
  "  • Use 'python start_mac.py cleanup' to free up space" +:+ nl +:+
  "  • Check logs with 'python start_mac.py logs'" +:+ nl +:+
  "  • Restart Docker Desktop if needed" +:+ nl +:+
  nl +:+ CYAN +:+ "Documentation:" +:+ ENDC +:+ nl +:+
  "  • Mac Guide: docs/MAC-DEPLOYMENT.md" +:+ nl +:+
  "  • General Guide: docs/SELF-HOSTING.md" +:+ nl +:+
  "  • Discord: https://discord.gg/Py6pCBUUPw" +:+ nl.

Definition show_help : Py Manager unit := print usage.

(** Run a method on the object a constructor returns. *)
Definition with_object {S A} (new : Py unit S) (body : Py S A) : Py unit A :=
  fun u w =>
    match new u w with
    | (_, w', Val s) => let '(_, w'', r) := body s w' in (u, w'', r)
    | (_, w', Exc e) => (u, w', Exc e)
    end.

Definition unless (ok : bool) {S} (k : Py S unit) : Py S unit :=
  if ok then mret tt else k.

(** The command dispatch of [main], after the manager exists; [argv] is
    [sys.argv]. *)
Definition dispatch (argv : list string) : Py Manager unit :=
  let command := default "start" (argv !! 1%nat) in
  if String.eqb command "help" then show_help
  else
    print_banner;;
    (if negb (existsb (String.eqb command) ["help"; "info"]) then
       ok ← check_prerequisites;
       unless ok
         (print_error "Prerequisites not met. Please fix the issues above.";;
          sys_exit 1)
     else mret tt);;
    if String.eqb command "start" then
      ok ← start_services;
      if ok : bool then
        print_success (nl +:+ "Suna is now running!");;
        print_info "Frontend: http://localhost:3000";;
        print_info "Backend: http://localhost:8000";;
        print_info "Use 'python start_mac.py stop' to stop services"
      else sys_exit 1
    else if String.eqb command "stop" then
      ok ← stop_services;
      if ok : bool then print_success "Suna services stopped" else sys_exit 1
    else if String.eqb command "restart" then
      ok ← restart_services;
      if ok : bool then print_success "Suna services restarted" else sys_exit 1
    else if String.eqb command "status" then show_status
    else if String.eqb command "logs" then show_logs (argv !! 2%nat) false
    else if String.eqb command "follow" then show_logs (argv !! 2%nat) true
    else if String.eqb command "open" then open_browser
    else if String.eqb command "info" then show_system_info
    else if String.eqb command "cleanup" then cleanup_docker
    else
      print_error ("Unknown command: " +:+ command);;
      print_info "Use 'python start_mac.py help' for available commands";;
      sys_exit 1.

Definition main (argv : list string) : Py unit unit :=
  w ← ask;
  if negb (String.eqb (platform_system w) "Darwin") then
    print_error "This script is designed for macOS only.";;
    print_info "For other platforms, use: python start.py";;
    sys_exit 1
  else with_object init (dispatch argv).

(** The three compose commands of a restart. *)
Definition down (cf : string) : list string := compose cf ["down"].
Definition pull (cf : string) : list string := compose cf ["pull"].
Definition up (cf : string) : list string := compose cf ["up"; "-d"].

(** The commands [main] knows. *)
Definition commands : list string :=
  ["start"; "stop"; "restart"; "status"; "logs"; "follow"; "open"; "info";
   "cleanup"; "help"].

(** The line [check_service_health] prints for a probe that did not stop
    the loop. *)
Definition verdict (name : string) (r : http_result) : event :=
  match probe_exn r with
  | None => Out Success (name +:+ " is healthy")
  | Some e => Out Warning (name +:+ " is not responding: " +:+ str_exn e)
  end.

End StartMac.

(** ** [setup_mac.py]: the setup wizard *)

Module SetupMac.

(** One configuration category: a dict in insertion order; a value is a
    string or [None]. *)
Definition category := list (string * option string).

(** [d[k] = v] on an insertion-ordered dict: an existing key keeps its
    place, a new key goes last. *)
Fixpoint dict_set (k : string) (v : option string) (d : category) : category :=
  match d with
  | [] => [(k, v)]
  | (k', v') :: d' =>
      if String.eqb k' k then (k, v) :: d' else (k', v') :: dict_set k v d'
  end.

(** [{**d, **src}] *)
Definition dict_update (d src : category) : category :=
  foldl (fun acc kv => dict_set kv.1 kv.2 acc) d src.

Fixpoint dict_get (k : string) (d : category) : option (option string) :=
  match d with
  | [] => None
  | (k', v) :: d' => if String.eqb k' k then Some v else dict_get k d'
  end.

(** [self.env_vars]: the setup method and the categories by name. *)
Record Bag := {
  setup_method : option string;
  categories : gmap string category
}.

Definition empty_bag : Bag := {| setup_method := None; categories := ∅ |}.

(** The wizard object, without its step counter. *)
Record Wizard := {
  is_apple_silicon : bool;
  homebrew_prefix : string;
  docker_platform : string;
  total_steps : Z;
  env_vars : Bag
}.

Definition print_step {S} (n total : Z) (title : string) : Py S unit :=
  emit (StepHeader n total title).

(** [detect_apple_silicon]: the bare [except] swallows every exception. *)
Definition detect_apple_silicon {S} : Py S bool :=
  try_except
    (out ← subprocess_run ["uname"; "-m"] false;
     mret (String.eqb (strip out) "arm64"))
    (fun _ => Some (mret false)).

Definition docker_info_cmd : list string := ["docker"; "info"].

Fixpoint wait_for_docker {S} (n : nat) : Py S bool :=
  match n with
  | O => mret false
  | S n' =>
      up ← try_except
             (subprocess_run docker_info_cmd true;;
              print_success "Docker Desktop is now running";;
              mret true)
             (fun e => match e with
                       | CalledProcessError =>
                           Some (sleep 2;; print ".";; mret false)
                       | _ => None
                       end);
      if up : bool then mret true else wait_for_docker n'
  end.

Fixpoint for_each {S A} (f : A -> Py S unit) (l : list A) : Py S unit :=
  match l with
  | [] => mret tt
  | x :: l' => f x;; for_each f l'
  end.

(** [check_docker_resources]: the lines it prints are left to the world's
    [docker_resources_report]; [None] stands for [json.loads] raising. *)
Definition check_docker_resources : Py Wizard unit :=
  try_except
    (out ← subprocess_run ["docker"; "system"; "info"; "--format"; "json"] true;
     w ← ask;
     match docker_resources_report w out with
     | Some lines => for_each (fun l => emit (Out l.1 l.2)) lines
     | None => raise JSONDecodeError
     end)
    (fun e =>
       match e with
       | CalledProcessError | JSONDecodeError =>
           Some (print_warning "Could not retrieve Docker resource information")
       | _ => None
       end).

Definition check_docker_status : Py Wizard bool :=
  z ← get_self;
  print_step 2 (total_steps z) "Checking Docker Configuration";;
  early ← try_except
    (subprocess_run docker_info_cmd true;;
     print_success "Docker Desktop is running";;
     mret None)
    (fun e =>
       match e with
       | CalledProcessError =>
           Some
             (print_warning "Docker Desktop is not running";;
              print_info "Starting Docker Desktop...";;
              try_except
                (subprocess_run ["open"; "/Applications/Docker.app"] true;;
                 print_info "Waiting for Docker Desktop to start...";;
                 up ← wait_for_docker 30;
                 if up : bool then mret None
                 else print_error "Docker Desktop failed to start";;
                      mret (Some false))
                (fun e' =>
                   match e' with
                   | CalledProcessError =>
                       Some (print_error "Failed to start Docker Desktop";;
                             mret (Some false))
                   | _ => None
                   end))
       | _ => None
       end);
  match early with
  | Some b => mret b
  | None => check_docker_resources;; mret true
  end.

(** [self.env_vars[name]] for a category, [KeyError] when it is missing. *)
Definition category_of (name : string) : Py Wizard category :=
  z ← get_self;
  match categories (env_vars z) !! name with
  | Some c => mret c
  | None => raise (KeyError name)
  end.

Definition item (d : category) (k : string) : Py Wizard (option string) :=
  match dict_get k d with
  | Some v => mret v
  | None => raise (KeyError k)
  end.

(** [f"{key}={value or ''}\n"] *)
Definition env_line (kv : string * option string) : string :=
  kv.1 +:+ "=" +:+ default EmptyString kv.2 +:+ nl.

Definition env_lines (d : category) : string :=
  foldl (fun acc kv => acc +:+ env_line kv) EmptyString d.

Definition arch_name (arm : bool) : string :=
  if arm then "Apple Silicon" else "Intel".
Definition mac_architecture (arm : bool) : string :=
  if arm then "arm64" else "x86_64".

(** The [backend_env] dict, in the order the dict display builds it. *)
Definition backend_env (z : Wizard) (method : string)
    (supabase llm search rapidapi smithery qstash mcp daytona : category)
  : category :=
  let is_docker := String.eqb method "docker" in
  let redis_host := if is_docker then "redis" else "localhost" in
  let rabbitmq_host := if is_docker then "rabbitmq" else "localhost" in
  let d := dict_set "ENV_MODE" (Some "local") [] in
  let d := dict_update d supabase in
  let d := dict_set "REDIS_HOST" (Some redis_host) d in
  let d := dict_set "REDIS_PORT" (Some "6379") d in
  let d := dict_set "RABBITMQ_HOST" (Some rabbitmq_host) d in
  let d := dict_set "RABBITMQ_PORT" (Some "5672") d in
  let d := dict_update d llm in
  let d := dict_update d search in
  let d := dict_update d rapidapi in
  let d := dict_update d smithery in
  let d := dict_update d qstash in
  let d := dict_update d mcp in
  let d := dict_update d daytona in
  let d := dict_set "NEXT_PUBLIC_URL" (Some "http://localhost:3000") d in
  let d := dict_set "DOCKER_PLATFORM" (Some (docker_platform z)) d in
  let d := dict_set "HOMEBREW_PREFIX" (Some (homebrew_prefix z)) d in
  let d := dict_set "MAC_ARCHITECTURE"
             (Some (mac_architecture (is_apple_silicon z))) d in
  if is_apple_silicon z then
    dict_set "DOCKER_DEFAULT_PLATFORM" (Some "linux/arm64")
      (dict_set "DOCKER_BUILDKIT" (Some "1") d)
  else d.

Definition backend_env_content (z : Wizard) (method : string) (d : category)
  : string :=
  "# Generated by Suna Mac setup script" +:+ nl +:+
  "# Architecture: " +:+ arch_name (is_apple_silicon z) +:+ nl +:+
  "# Setup Method: " +:+ method +:+ nl +:+ nl +:+
  env_lines d.

Definition frontend_env (z : Wizard) (url anon : option string) : category :=
  let d := dict_set "NEXT_PUBLIC_SUPABASE_URL" url [] in
  let d := dict_set "NEXT_PUBLIC_SUPABASE_ANON_KEY" anon d in
  let d := dict_set "NEXT_PUBLIC_BACKEND_URL" (Some "http://localhost:8000/api") d in
  let d := dict_set "NEXT_PUBLIC_URL" (Some "http://localhost:3000") d in
  let d := dict_set "NEXT_PUBLIC_ENV_MODE" (Some "LOCAL") d in
  dict_set "NEXT_PUBLIC_MAC_ARCHITECTURE"
    (Some (mac_architecture (is_apple_silicon z))) d.

Definition frontend_env_content (z : Wizard) (d : category) : string :=
  "# Generated by Suna Mac setup script" +:+ nl +:+
  "# Architecture: " +:+ arch_name (is_apple_silicon z) +:+ nl +:+ nl +:+
  env_lines d.

Definition backend_path : string := "backend/.env".
Definition frontend_path : string := "frontend/.env.local".

Definition configure_mac_env_files : Py Wizard unit :=
  z ← get_self;
  print_step 11 (total_steps z) "Configuring Mac Environment Files";;
  method ← match setup_method (env_vars z) with
           | Some m => mret m
           | None => raise (KeyError "setup_method")
           end;
  supabase ← category_of "supabase";
  llm ← category_of "llm";
  search ← category_of "search";
  rapidapi ← category_of "rapidapi";
  smithery ← category_of "smithery";
  qstash ← category_of "qstash";
  mcp ← category_of "mcp";
  daytona ← category_of "daytona";
  write_text backend_path
    (backend_env_content z method
       (backend_env z method supabase llm search rapidapi smithery qstash
          mcp daytona));;
  print_success "Created backend/.env file with Mac optimizations";;
  url ← item supabase "SUPABASE_URL";
  anon ← item supabase "SUPABASE_ANON_KEY";
  write_text frontend_path (frontend_env_content z (frontend_env z url anon));;
  print_success "Created frontend/.env.local file with Mac optimizations".

Definition services : list (string * string) :=
  [("Frontend", "http://localhost:3000");
   ("Backend", "http://localhost:8000/health")].

(** One pass of the loop in [check_service_health]; the bare [except]
    catches everything. *)
Definition check_one (s : string * string) : Py Wizard unit :=
  try_except
    (urlopen s.2 5;; print_success (s.1 +:+ " is healthy"))
    (fun _ => Some (print_warning (s.1 +:+ " is not responding yet"))).

Definition check_service_health : Py Wizard unit :=
  for_each check_one services.

(** The line [check_service_health] prints for a probe. *)
Definition verdict (name : string) (r : http_result) : event :=
  if answered_2xx r then Out Success (name +:+ " is healthy")
  else Out Warning (name +:+ " is not responding yet").

Definition start_mac_services : Py Wizard bool :=
  z ← get_self;
  print_step 14 (total_steps z) "Starting Suna Services";;
  let method := default "docker" (setup_method (env_vars z)) in
  if String.eqb method "docker" then
    print_info "Starting services with Docker Compose (Mac optimized)...";;
    try_except
      (subprocess_run
         ["docker"; "compose"; "-f"; "docker-compose.mac.yaml"; "up"; "-d"] true;;
       print_success "Services started successfully";;
       print_info "Waiting for services to be ready...";;
       sleep 10;;
       check_service_health;;
       mret true)
      (fun e =>
         match e with
         | CalledProcessError =>
             Some (print_error ("Failed to start services: " +:+ str_exn e);;
                   mret false)
         | _ => None
         end)
  else
    print_info "Starting services manually...";;
    print_info "Please start the services manually:";;
    print "  1. Start infrastructure: docker compose up redis rabbitmq -d";;
    print "  2. Start backend: cd backend && uv run api.py";;
    print "  3. Start worker: cd backend && uv run dramatiq run_agent_background";;
    print "  4. Start frontend: cd frontend && npm run dev";;
    mret true.

(** *** The step sequence of [run_mac_setup] *)

Module Step.
Inductive name :=
| check_mac_prerequisites
| check_docker_status
| collect_setup_method
| collect_supabase_keys
| collect_daytona_keys
| collect_llm_keys
| collect_search_keys
| collect_rapidapi_keys
| collect_smithery_keys
| collect_qstash_keys
| collect_mcp_keys
| configure_mac_env_files
| create_mac_docker_compose
| setup_supabase_database
| install_mac_dependencies
| start_mac_services.
End Step.

(** A call in a step: [self.f()] when [on_false] is [None],
    [if not self.f(): print_error(msg); return False] when it is [Some msg]. *)
Record call := {
  callee : Step.name;
  on_false : option string
}.

Definition plain (f : Step.name) : call := {| callee := f; on_false := None |}.
Definition checked (f : Step.name) (msg : string) : call :=
  {| callee := f; on_false := Some msg |}.

(** [if self.current_step <= idx: <calls>; self.save_progress(idx)] *)
Record block := {
  idx : Z;
  calls : list call
}.

Definition blocks : list block :=
  [ {| idx := 1; calls := [plain Step.check_mac_prerequisites] |};
    {| idx := 2;
       calls := [checked Step.check_docker_status
                   "Docker setup failed. Please fix Docker issues and try again."] |};
    {| idx := 3; calls := [plain Step.collect_setup_method] |};
    {| idx := 4; calls := [plain Step.collect_supabase_keys] |};
    {| idx := 5; calls := [plain Step.collect_daytona_keys] |};
    {| idx := 6; calls := [plain Step.collect_llm_keys] |};
    {| idx := 7; calls := [plain Step.collect_search_keys] |};
    {| idx := 8; calls := [plain Step.collect_rapidapi_keys] |};
    {| idx := 9; calls := [plain Step.collect_smithery_keys] |};
    {| idx := 10; calls := [plain Step.collect_qstash_keys] |};
    {| idx := 11; calls := [plain Step.collect_mcp_keys] |};
    {| idx := 12;
       calls := [plain Step.configure_mac_env_files;
                 plain Step.create_mac_docker_compose] |};
    {| idx := 13; calls := [plain Step.setup_supabase_database] |};
    {| idx := 14;
       calls := [checked Step.install_mac_dependencies
                   "Dependency installation failed"] |};
    {| idx := 15;
       calls := [checked Step.start_mac_services "Service startup failed"] |} ].

(** The persisted progress record. *)
Record Progress := {
  p_current_step : Z;
  p_collected : Bag;
  p_updated_at : Z
}.

(** What the run leaves in its journal: each call with whether it let the
    run go on, and each [save_progress]. *)
Inductive jevent :=
| Ran (f : Step.name) (went_on : bool)
| Saved (n : Z)
| Cleaned.

(** The wizard with its step counter, the progress file it owns and the
    journal of the run.  Step bodies work on [wizard] alone. *)
Record Orch := {
  current_step : Z;
  wizard : Wizard;
  progress : option Progress;
  journal : list jevent
}.

Definition set_wizard (z : Wizard) (o : Orch) : Orch :=
  {| current_step := current_step o; wizard := z; progress := progress o;
     journal := journal o |}.

Definition set_env_vars (b : Bag) (z : Wizard) : Wizard :=
  {| is_apple_silicon := is_apple_silicon z;
     homebrew_prefix := homebrew_prefix z;
     docker_platform := docker_platform z;
     total_steps := total_steps z; env_vars := b |}.

Definition set_total_steps (n : Z) (z : Wizard) : Wizard :=
  {| is_apple_silicon := is_apple_silicon z;
     homebrew_prefix := homebrew_prefix z;
     docker_platform := docker_platform z;
     total_steps := n; env_vars := env_vars z |}.

Definition note (j : jevent) (o : Orch) : Orch :=
  {| current_step := current_step o; wizard := wizard o;
     progress := progress o; journal := journal o ++ [j] |}.

Definition ran (j : list jevent) : list (Step.name * bool) :=
  omap (fun e => match e with Ran f b => Some (f, b) | _ => None end) j.

Definition saved (j : list jevent) : list Z :=
  omap (fun e => match e with Saved n => Some n | _ => None end) j.

(** Journal entries of calls that let the run go on. *)
Definition ok_entries (cs : list call) : list (Step.name * bool) :=
  map (fun c => (callee c, true)) cs.

(** The blocks whose guard [k <= idx] holds. *)
Definition passing (k : Z) (bs : list block) : list block :=
  filter (fun b => (k <= idx b)%Z) bs.

Definition increasing (bs : list block) : Prop :=
  StronglySorted (fun a b => (idx a < idx b)%Z) bs.


(** The step number on disk. *)
Definition persisted (o : Orch) : option Z := p_current_step <$> progress o.

(** The step number on disk after the saves of [j]: the save of block [n]
    leaves [n + 1]. *)
Definition latest (o : Orch) (j : list jevent) : option Z :=
  match last (saved j) with
  | Some n => Some (n + 1)%Z
  | None => persisted o
  end.

(** Where [load_progress] makes the run start. *)
Definition resume_point (o : Orch) : Z :=
  match progress o with
  | Some p => p_current_step p
  | None => 1
  end.



(** A run of calls that stopped: a checked call returned [False], or a
    call raised. *)
Definition aborted {A} (r : res (option A)) (b : A) : Prop :=
  r = Val (Some b) \/ exists e, r = Exc e.

Section Orchestrator.

(** Whether [save_progress(n)] also stores [n] in [self.current_step]. *)
Variable keeps_step : bool.

(** The bodies of the steps; the return value of a plain call is ignored. *)
Variable body : Step.name -> Py Wizard bool.

(** Modelled from the spec: [load_progress] of the base wizard, which is
    not among the sources.  A persisted record sets the step to resume at
    and the collected values; without one the run starts at step 1 with an
    empty bag. *)
Definition load_progress : Py Orch unit :=
  fun o w =>
    match progress o with
    | Some p =>
        ({| current_step := p_current_step p;
            wizard := set_env_vars (p_collected p) (wizard o);
            progress := progress o; journal := journal o |}, w, Val tt)
    | None =>
        ({| current_step := 1;
            wizard := set_env_vars empty_bag (wizard o);
            progress := None; journal := journal o |}, w, Val tt)
    end.

(** Modelled from the spec: [save_progress(n)] of the base wizard, which
    is not among the sources; the source calls it when block [n] has
    completed.  As the spec has it, the record persisted then names the
    next step to execute, [n + 1], and holds the collected values and the
    time of the write. *)
Definition save_progress (n : Z) : Py Orch unit :=
  fun o w =>
    ({| current_step := if keeps_step then n + 1 else current_step o;
        wizard := wizard o;
        progress := Some {| p_current_step := n + 1;
                            p_collected := env_vars (wizard o);
                            p_updated_at := Z.of_nat (length (log w)) |};
        journal := journal o ++ [Saved n] |}, w, Val tt).

(** Modelled from the spec: [cleanup_progress] of the base wizard, which
    is not among the sources.  It deletes the persisted record. *)
Definition cleanup_progress : Py Orch unit :=
  fun o w =>
    ({| current_step := current_step o; wizard := wizard o;
        progress := None; journal := journal o ++ [Cleaned] |}, w, Val tt).

(** One call of a step body; [Some false] is the [return False] of a
    checked call, [None] lets the run go on. *)
Definition invoke (c : call) : Py Orch (option bool) :=
  fun o w =>
    match body (callee c) (wizard o) w with
    | (z, w', Val b) =>
        match on_false c with
        | Some msg =>
            if b then (note (Ran (callee c) true) (set_wizard z o), w', Val None)
            else
              bind (print_error msg) (fun _ => ret (Some false))
                (note (Ran (callee c) false) (set_wizard z o)) w'
        | None => (note (Ran (callee c) true) (set_wizard z o), w', Val None)
        end
    | (z, w', Exc e) =>
        (note (Ran (callee c) false) (set_wizard z o), w', Exc e)
    end.

Fixpoint run_calls (cs : list call) : Py Orch (option bool) :=
  match cs with
  | [] => mret None
  | c :: cs' =>
      r ← invoke c;
      match r with
      | Some b => mret (Some b)
      | None => run_calls cs'
      end
  end.


Definition run_block (b : block) : Py Orch (option bool) :=
  o ← get_self;
  if (current_step o <=? idx b)%Z then
    r ← run_calls (calls b);
    match r with
    | Some x => mret (Some x)
    | None => save_progress (idx b);; mret None
    end
  else mret None.

Fixpoint run_blocks (bs : list block) : Py Orch (option bool) :=
  match bs with
  | [] => mret None
  | b :: bs' =>
      r ← run_block b;
      match r with
      | Some x => mret (Some x)
      | None => run_blocks bs'
      end
  end.

(** [get_macos_version] *)
Definition get_macos_version {S} : Py S string :=
  try_except
    (out ← subprocess_run ["sw_vers"; "-productVersion"] false;
     mret (strip out))
    (fun _ => Some (mret "Unknown")).

(** [print_mac_banner]; the banner of the base module is not printed
    here. *)
Definition print_mac_banner : Py Orch unit :=
  o ← get_self;
  let z := wizard o in
  macos_version ← get_macos_version;
  print "Mac-Optimized Setup for Suna";;
  print ("Architecture: " +:+
         (if is_apple_silicon z then "Apple Silicon (ARM64)" else "Intel (x86_64)"));;
  print ("macOS Version: " +:+ macos_version);;
  print ("Homebrew Prefix: " +:+ homebrew_prefix z);;
  print ("Docker Platform: " +:+ docker_platform z);;
  print EmptyString.

(** [print_completion_message]: its first lines. *)
Definition print_completion_message : Py Orch unit :=
  print (nl +:+ str_repeat "=" 60);;
  print_success "Suna Mac Setup Complete!";;
  print (str_repeat "=" 60).

Definition interrupted_1 : string :=
  nl +:+ nl +:+ "Setup interrupted. Progress has been saved.".
Definition interrupted_2 : string :=
  "Run 'python setup_mac.py' again to continue from where you left off.".

(** The body of the [try] in [run_mac_setup]. *)
Definition setup_steps : Py Orch bool :=
  r ← run_blocks blocks;
  match r with
  | Some b => mret b
  | None => print_completion_message;; cleanup_progress;; mret true
  end.

(** The two [except] clauses of [run_mac_setup]. *)
Definition on_exception (e : exn) : option (Py Orch bool) :=
  match e with
  | KeyboardInterrupt =>
      Some (print interrupted_1;; print interrupted_2;; mret false)
  | _ =>
      if is_Exception e
      then Some (print_error ("Setup failed: " +:+ str_exn e);; mret false)
      else None
  end.

Definition run_mac_setup : Py Orch bool :=
  print_mac_banner;;
  load_progress;;
  try_except setup_steps on_exception.

(** [sys.exit(0)] on success, [sys.exit(1)] otherwise. *)
Definition exit_with (m : Py Orch bool) : Py Orch unit :=
  success ← m;
  if success : bool then sys_exit 0 else sys_exit 1.

(** [main], from the object the base constructor leaves. *)
Definition main : Py Orch unit :=
  w ← ask;
  if negb (String.eqb (platform_system w) "Darwin") then
    print_error "This script is designed for macOS only.";;
    print_info "For other platforms, use: python setup.py";;
    sys_exit 1
  else
    arm ← detect_apple_silicon;
    o ← get_self;
    set_self (set_wizard
                {| is_apple_silicon := arm;
                   homebrew_prefix := if arm then "/opt/homebrew" else "/usr/local";
                   docker_platform := if arm then "linux/arm64" else "linux/amd64";
                   total_steps := 15;
                   env_vars := env_vars (wizard o) |} o);;
    exit_with run_mac_setup.

End Orchestrator.

(** The step bodies this file defines, over [base] for the others. *)
Definition mac_body (base : Step.name -> Py Wizard bool)
  : Step.name -> Py Wizard bool :=
  fun f =>
    match f with
    | Step.check_docker_status => check_docker_status
    | Step.configure_mac_env_files => configure_mac_env_files;; mret true
    | Step.start_mac_services => start_mac_services
    | _ => base f
    end.

(** The [dependencies] dict of [check_dependencies], in its order, each
    with [cmd.split()]. *)
Definition dependencies : list (string * list string) :=
  [("git", ["git"; "--version"]);
   ("python3.11", ["python3.11"; "--version"]);
   ("node", ["node"; "--version"]);
   ("npm", ["npm"; "--version"]);
   ("docker", ["docker"; "--version"]);
   ("supabase", ["supabase"; "--version"]);
   ("uv", ["uv"; "--version"])].

(** The loop of [check_dependencies] over [deps], from the list [missing]
    built so far. *)
Fixpoint check_each {S} (deps : list (string * list string))
    (missing : list string) : Py S (list string) :=
  match deps with
  | [] => mret missing
  | d :: rest =>
      missing' ← try_except
                   (subprocess_run d.2 true;;
                    print_success (d.1 +:+ " is installed");;
                    mret missing)
                   (fun e =>
                      match e with
                      | CalledProcessError | FileNotFoundError =>
                          Some (print_error (d.1 +:+ " is not installed");;
                                mret (missing ++ [d.1])%list)
                      | _ => None
                      end);
      check_each rest missing'
  end.

Definition check_dependencies {S} : Py S (list string) :=
  check_each dependencies [].

(** The dependencies whose command did not exit with status 0, given the
    commands that were run. *)
Definition missing_of (deps : list (string * list string))
    (runs : list (list string * proc_result)) : list string :=
  omap (fun x => if exited_ok x.2.2 then None else Some x.1.1) (zip deps runs).

(** The command [start_mac_services] spawns. *)
Definition up_cmd : list string :=
  ["docker"; "compose"; "-f"; "docker-compose.mac.yaml"; "up"; "-d"].

End SetupMac.

(** ** [test_mac_deployment.py]: the connectivity test *)

Module TestMac.

Definition services : list (string * string) :=
  [("Frontend", "http://localhost:3000");
   ("Backend Health", "http://localhost:8000/health");
   ("Backend API", "http://localhost:8000/api")].

(** One pass of the loop in [test_service_connectivity]; [true] when the
    pass adds one to [accessible_services]. *)
Definition probe {S} (s : string * string) : Py S bool :=
  try_except
    (code ← urlopen s.2 5;
     if (code =? 200)%Z then
       print_success (s.1 +:+ " is accessible (" +:+ s.2 +:+ ")");;
       mret true
     else
       print_warning (s.1 +:+ " returned status " +:+ pretty code);;
       mret false)
    (fun e =>
       match e with
       | URLError =>
           Some (print_warning (s.1 +:+ " is not accessible (" +:+ s.2 +:+ ")");;
                 mret false)
       | _ =>
           if is_Exception e
           then Some (print_warning (s.1 +:+ " test failed: " +:+ str_exn e);;
                      mret false)
           else None
       end).

Fixpoint count_accessible {S} (l : list (string * string)) (acc : Z) : Py S Z :=
  match l with
  | [] => mret acc
  | s :: l' =>
      hit ← probe s;
      count_accessible l' (if hit : bool then (acc + 1)%Z else acc)
  end.

Definition test_service_connectivity {S} : Py S bool :=
  accessible_services ← count_accessible services 0%Z;
  mret (0 <? accessible_services)%Z.

(** The tester object. *)
Record Tester := {
  is_apple_silicon : bool;
  test_results : list (string * string);
  total_tests : Z;
  passed_tests : Z;
  failed_tests : Z
}.

(** [d[k] = v] on an insertion-ordered dict of strings. *)
Fixpoint results_set (k v : string) (d : list (string * string))
  : list (string * string) :=
  match d with
  | [] => [(k, v)]
  | (k', v') :: d' =>
      if String.eqb k' k then (k, v) :: d' else (k', v') :: results_set k v d'
  end.

(** [d.get(k)] *)
Fixpoint results_get (k : string) (d : list (string * string))
  : option string :=
  match d with
  | [] => None
  | (k', v) :: d' => if String.eqb k' k then Some v else results_get k d'
  end.

Definition print_test_header {S} (test_name : string) : Py S unit :=
  print (nl +:+ test_name);;
  print (str_repeat "=" 50).

(** A test method: of the tester it reads [is_apple_silicon] alone. *)
Definition Test : Type := bool -> Py unit bool.

Definition call_test (test_func : Test) : Py Tester bool :=
  fun t w =>
    let '(_, w', r) := test_func (is_apple_silicon t) tt w in (t, w', r).

(** [self.total_tests += 1] *)
Definition count_test : Py Tester unit :=
  fun t w =>
    ({| is_apple_silicon := is_apple_silicon t;
        test_results := test_results t;
        total_tests := total_tests t + 1;
        passed_tests := passed_tests t;
        failed_tests := failed_tests t |}, w, Val tt).

(** [self.passed_tests += 1; self.test_results[test_name] = verdict] *)
Definition record_pass (test_name verdict : string) : Py Tester unit :=
  fun t w =>
    ({| is_apple_silicon := is_apple_silicon t;
        test_results := results_set test_name verdict (test_results t);
        total_tests := total_tests t;
        passed_tests := passed_tests t + 1;
        failed_tests := failed_tests t |}, w, Val tt).

(** [self.failed_tests += 1; self.test_results[test_name] = verdict] *)
Definition record_fail (test_name verdict : string) : Py Tester unit :=
  fun t w =>
    ({| is_apple_silicon := is_apple_silicon t;
        test_results := results_set test_name verdict (test_results t);
        total_tests := total_tests t;
        passed_tests := passed_tests t;
        failed_tests := failed_tests t + 1 |}, w, Val tt).

Definition run_test (test_name : string) (test_func : Test) : Py Tester bool :=
  count_test;;
  print_test_header test_name;;
  try_except
    (result ← call_test test_func;
     if result : bool then
       print_success (test_name +:+ " PASSED");;
       record_pass test_name "PASSED";;
       mret result
     else
       print_error (test_name +:+ " FAILED");;
       record_fail test_name "FAILED";;
       mret result)
    (fun e =>
       if is_Exception e then
         Some (print_error (test_name +:+ " FAILED with exception: "
                            +:+ str_exn e);;
               record_fail test_name ("FAILED: " +:+ str_exn e);;
               mret false)
       else None).

(** The loop of [run_all_tests] over its table of tests. *)
Fixpoint run_tests (tests : list (string * Test)) : Py Tester unit :=
  match tests with
  | [] => mret tt
  | t :: rest => run_test t.1 t.2;; run_tests rest
  end.

(** The end of [main]: the exit status after the tests have run. *)
Definition exit_on_results : Py Tester unit :=
  t ← get_self;
  if (failed_tests t =? 0)%Z then sys_exit 0 else sys_exit 1.

Definition config_cmd (file_path : string) : list string :=
  ["docker"; "compose"; "-f"; file_path; "config"].

(** The loop of [test_docker_compose_files], from the [has_compose] so
    far. *)
Fixpoint check_compose_files {S} (paths : list string) (has_compose : bool)
  : Py S bool :=
  match paths with
  | [] => mret has_compose
  | file_path :: rest =>
      found ← os_path_exists file_path;
      if found : bool then
        print_success (file_path +:+ " exists");;
        try_except
          (subprocess_run (config_cmd file_path) true;;
           print_success (file_path +:+ " is valid"))
          (fun e =>
             match e with
             | CalledProcessError =>
                 Some (print_warning (file_path
                                      +:+ " has configuration issues"))
             | _ => None
             end);;
        check_compose_files rest true
      else
        print_info (file_path +:+ " does not exist");;
        check_compose_files rest has_compose
  end.

Definition test_docker_compose_files {S} : Py S bool :=
  check_compose_files ["docker-compose.yaml"; "docker-compose.mac.yaml"] false.

End TestMac.

(** ** The health poll as the specification words it *)

Module HealthSpec.

Record ServiceDescriptor := {
  sd_name : string;
  sd_url : string;
  sd_lo : Z;
  sd_hi : Z
}.

(** A bounded-timeout request; healthy on a response in the expected
    status range. *)
Definition spec_probe {S} (timeout : Z) (sd : ServiceDescriptor) : Py S bool :=
  try_except
    (code ← urlopen (sd_url sd) timeout;
     mret ((sd_lo sd <=? code)%Z && (code <=? sd_hi sd)%Z))
    (fun e => if is_Exception e then Some (mret false) else None).

(** One attempt: every not-yet-healthy service is probed; the result is
    the list of those still not healthy. *)
Fixpoint spec_attempt {S} (timeout : Z) (pending : list ServiceDescriptor)
  : Py S (list ServiceDescriptor) :=
  match pending with
  | [] => mret []
  | sd :: rest =>
      healthy ← spec_probe timeout sd;
      still ← spec_attempt timeout rest;
      mret (if healthy : bool then still else sd :: still)
  end.

(** Attempts 1..maxAttempts, stopping early once all are healthy and
    sleeping [interval] between attempts; the result is the list of
    services reported unhealthy. *)
Fixpoint spec_poll {S} (maxAttempts : nat) (interval timeout : Z)
    (pending : list ServiceDescriptor) : Py S (list ServiceDescriptor) :=
  match maxAttempts with
  | O => mret pending
  | S n =>
      still ← spec_attempt timeout pending;
      match still, n with
      | [], _ => mret []
      | _, O => mret still
      | _, _ => sleep interval;; spec_poll n interval timeout still
      end
  end.

Definition descriptors (l : list (string * string))
  : list ServiceDescriptor :=
  map (fun s => {| sd_name := s.1; sd_url := s.2; sd_lo := 200; sd_hi := 299 |}) l.

End HealthSpec.

(** ** Sample worlds and objects *)

Module Samples.

(** A Mac where every command succeeds and every probe answers 200. *)
Definition mac : World :=
  {| platform_system := "Darwin";
     spawn_result := fun _ _ => Exited 0 "arm64";
     http_result_at := fun _ _ => Status 200;
     files := {[ "backend/.env" := "OLD=1"; "frontend/.env.local" := "OLD=2";
                 "docker-compose.mac.yaml" := "services:" ]};
     writable := fun _ => true;
     json_loads := fun _ => None;
     format_gb := fun _ => None;
     docker_info_lines := fun _ => None;
     docker_resources_report := fun _ => None;
     log := [] |}.

Definition with_spawn (f : nat -> list string -> proc_result) (w : World) : World :=
  {| platform_system := platform_system w; spawn_result := f;
     http_result_at := http_result_at w; files := files w;
     writable := writable w; json_loads := json_loads w;
     format_gb := format_gb w; docker_info_lines := docker_info_lines w;
     docker_resources_report := docker_resources_report w; log := log w |}.

Definition with_http (f : nat -> string -> http_result) (w : World) : World :=
  {| platform_system := platform_system w; spawn_result := spawn_result w;
     http_result_at := f; files := files w;
     writable := writable w; json_loads := json_loads w;
     format_gb := format_gb w; docker_info_lines := docker_info_lines w;
     docker_resources_report := docker_resources_report w; log := log w |}.

(** The same Mac without a [docker] binary. *)
Definition mac_without_docker : World :=
  with_spawn (fun _ cmd => match cmd with
                           | "docker" :: _ => Raises FileNotFoundError
                           | _ => Exited 0 "arm64"
                           end) mac.

(** No service ever answers. *)
Definition mac_services_down : World :=
  with_http (fun _ _ => Fails URLError) mac.

(** The backend answers from the fourth logged event on, not before. *)
Definition mac_backend_late : World :=
  with_http (fun t url =>
               if String.eqb url "http://localhost:8000/health" && (t <? 4)%nat
               then Fails URLError else Status 200) mac.

(** Only the frontend answers. *)
Definition mac_frontend_only : World :=
  with_http (fun _ url =>
               if String.eqb url "http://localhost:3000"
               then Status 200 else Fails URLError) mac.

Definition manager : StartMac.Manager :=
  {| StartMac.is_apple_silicon := true;
     StartMac.docker_platform := "linux/arm64";
     StartMac.compose_file := "docker-compose.mac.yaml";
     StartMac.running_processes := [] |}.

Definition bag : SetupMac.Bag :=
  {| SetupMac.setup_method := Some "docker";
     SetupMac.categories :=
       {[ "supabase" := [("SUPABASE_URL", Some "https://x.supabase.co");
                         ("SUPABASE_ANON_KEY", Some "anon");
                         ("SUPABASE_SERVICE_ROLE_KEY", None)];
          "llm" := [("OPENAI_API_KEY", Some "sk")];
          "search" := [("TAVILY_API_KEY", Some "tv")];
          "rapidapi" := [("RAPID_API_KEY", None)];
          "smithery" := [];
          "qstash" := [("QSTASH_TOKEN", Some "q")];
          "mcp" := [("MCP_CREDENTIAL_ENCRYPTION_KEY", Some "k")];
          "daytona" := [("DAYTONA_API_KEY", Some "d")] ]} |}.

Definition wizard : SetupMac.Wizard :=
  {| SetupMac.is_apple_silicon := true;
     SetupMac.homebrew_prefix := "/opt/homebrew";
     SetupMac.docker_platform := "linux/arm64";
     SetupMac.total_steps := 15;
     SetupMac.env_vars := bag |}.

(** The wizard object of a first run, and of a run that finds [p]. *)
Definition fresh : SetupMac.Orch :=
  {| SetupMac.current_step := 0; SetupMac.wizard := wizard;
     SetupMac.progress := None; SetupMac.journal := [] |}.



(** Step bodies that all succeed. *)
Definition all_fine : SetupMac.Step.name -> Py SetupMac.Wizard bool :=
  fun _ => mret true.

(** Docker cannot be brought up: step 2 answers [False]. *)
Definition docker_down : SetupMac.Step.name -> Py SetupMac.Wizard bool :=
  fun f => match f with
           | SetupMac.Step.check_docker_status => mret false
           | _ => mret true
           end.

(** Ctrl-C while the search keys are collected (step 7). *)
Definition interrupted_at_search : SetupMac.Step.name -> Py SetupMac.Wizard bool :=
  fun f => match f with
           | SetupMac.Step.collect_search_keys => raise KeyboardInterrupt
           | _ => mret true
           end.

(** The same machine under Linux. *)
Definition linux : World :=
  {| platform_system := "Linux";
     spawn_result := spawn_result mac; http_result_at := http_result_at mac;
     files := files mac; writable := writable mac;
     json_loads := json_loads mac; format_gb := format_gb mac;
     docker_info_lines := docker_info_lines mac;
     docker_resources_report := docker_resources_report mac; log := [] |}.

(** A wizard whose Supabase answers lack the project URL. *)
Definition wizard_without_url : SetupMac.Wizard :=
  {| SetupMac.is_apple_silicon := true;
     SetupMac.homebrew_prefix := "/opt/homebrew";
     SetupMac.docker_platform := "linux/arm64";
     SetupMac.total_steps := 15;
     SetupMac.env_vars :=
       {| SetupMac.setup_method := Some "docker";
          SetupMac.categories :=
            <[ "supabase" := [("SUPABASE_ANON_KEY", Some "anon")] ]>
              (SetupMac.categories bag) |} |}.

(** A test that raises. *)
Definition raising_test : TestMac.Test :=
  fun _ => raise (OtherError "boom").

(** A tester that has run nothing yet. *)
Definition tester : TestMac.Tester :=
  {| TestMac.is_apple_silicon := true; TestMac.test_results := [];
     TestMac.total_tests := 0; TestMac.passed_tests := 0;
     TestMac.failed_tests := 0 |}.

End Samples.

(** ** Facts about the runtime *)

Local Open Scope list_scope.

Arguments grown : simpl never.

Lemma grown_grown w a b : grown (grown w a) b = grown w (a ++ b).
Proof. unfold grown, with_log. cbn. by rewrite app_assoc. Qed.

Lemma grown_nil w : grown w [] = w.
Proof. destruct w. unfold grown, with_log. cbn. by rewrite app_nil_r. Qed.

Lemma log_grown w evs : log (grown w evs) = log w ++ evs.
Proof. done. Qed.
Lemma spawn_result_grown w evs : spawn_result (grown w evs) = spawn_result w.
Proof. done. Qed.
Lemma http_result_at_grown w evs : http_result_at (grown w evs) = http_result_at w.
Proof. done. Qed.
Lemma files_grown w evs : files (grown w evs) = files w.
Proof. done. Qed.
Lemma platform_system_grown w evs : platform_system (grown w evs) = platform_system w.
Proof. done. Qed.

Ltac py :=
  unfold mret, mbind, Py_ret, Py_bind, ret, bind, try_except, raise, sys_exit,
    get_self, set_self, ask, print, print_info, print_success, print_warning,
    print_error, sleep, emit, os_path_exists, subprocess_run, urlopen in *;
  cbn;
  rewrite ?log_grown, ?spawn_result_grown, ?http_result_at_grown, ?files_grown,
    ?platform_system_grown, ?grown_grown, ?length_app; cbn.

Ltac pyg :=
  unfold mret, mbind, Py_ret, Py_bind, ret, bind, try_except, raise, sys_exit,
    get_self, set_self, ask, print, print_info, print_success, print_warning,
    print_error, sleep, emit, os_path_exists, subprocess_run, urlopen;
  cbn;
  rewrite ?log_grown, ?spawn_result_grown, ?http_result_at_grown, ?files_grown,
    ?platform_system_grown, ?grown_grown, ?length_app; cbn.

Module StartMacFacts.
Import StartMac.

Lemma check_one_run s m w :
  check_one s m w =
  let r := http_result_at w (length (log w)) s.2 in
  match probe_exn r with
  | None => (m, grown w [UrlOpen s.2 10 r; Out Success (s.1 +:+ " is healthy")], Val tt)
  | Some e =>
      if is_Exception e
      then (m, grown w [UrlOpen s.2 10 r;
                        Out Warning (s.1 +:+ " is not responding: " +:+ str_exn e)], Val tt)
      else (m, grown w [UrlOpen s.2 10 r], Exc e)
  end.
Proof.
  unfold check_one, probe_exn. py.
  destruct (http_result_at w (length (log w)) s.2) as [c|e]; py.
  - destruct ((200 <=? c)%Z && (c <? 300)%Z); py; done.
  - destruct (is_Exception e); py; done.
Qed.

Lemma check_service_health_run m w :
  exists evs r,
    check_service_health m w = (m, grown w evs, r) /\
    spawns evs = [] /\ sleeps evs = [].
Proof.
  unfold check_service_health, services, for_each. py.
  rewrite !check_one_run. cbn zeta.
  destruct (probe_exn _) as [e1|]; [destruct (is_Exception e1)|]; py;
  rewrite ?check_one_run; cbn zeta; py;
  try (destruct (probe_exn _) as [e2|]; [destruct (is_Exception e2)|]); py;
  eexists _, _; (split; [reflexivity|done]).
Qed.

Ltac case_spawn H :=
  match goal with
  | |- context [match spawn_result ?w ?t ?c with _ => _ end] =>
      destruct (spawn_result w t c) as [?rc ?out|?e] eqn:H
  end.

(** C3 (as the code has it): a restart spawns [compose down] and, only
    when that exited with status 0, [compose pull] and then, only when the
    pull exited with status 0, [compose up -d]: three commands when all goes
    well, not two. *)
Theorem restart_spawns m w :
  exists evs r,
    restart_services m w = (m, grown w evs, r) /\
    let cf := compose_file m in
    ((exists r1, spawns evs = [(down cf, r1)] /\ exited_ok r1 = false /\ r <> Val true)
     \/ (exists r1 r2, spawns evs = [(down cf, r1); (pull cf, r2)]
           /\ exited_ok r1 = true /\ exited_ok r2 = false /\ r <> Val true)
     \/ (exists r1 r2 r3, spawns evs = [(down cf, r1); (pull cf, r2); (up cf, r3)]
           /\ exited_ok r1 = true /\ exited_ok r2 = true)).
Proof.
  unfold restart_services, stop_services, start_services. py.
  case_spawn H1; py.
  2:{ destruct e; py; eexists _, _; (split; [reflexivity|]); left; eexists; cbn; rewrite ?H1; done. }
  destruct (rc =? 0)%Z eqn:Hrc1; py.
  2:{ eexists _, _; (split; [reflexivity|]); left; eexists; cbn; rewrite ?H1; cbn; rewrite ?Hrc1; done. }
  case_spawn H2; py.
  2:{ destruct e; py; eexists _, _; (split; [reflexivity|]); right; left; eexists _, _; cbn; rewrite ?H1, ?H2; cbn; rewrite ?Hrc1; done. }
  destruct (rc0 =? 0)%Z eqn:Hrc2; py.
  2:{ eexists _, _; (split; [reflexivity|]); right; left; eexists _, _; cbn; rewrite ?H1, ?H2; cbn; rewrite ?Hrc1, ?Hrc2; done. }
  case_spawn H3; py.
  2:{ destruct e; py; eexists _, _; (split; [reflexivity|]); right; right; eexists _, _, _; cbn; rewrite ?H1, ?H2, ?H3; cbn; rewrite ?Hrc1, ?Hrc2; done. }
  destruct (rc1 =? 0)%Z eqn:Hrc3; py.
  2:{ eexists _, _; (split; [reflexivity|]); right; right; eexists _, _, _; cbn; rewrite ?H1, ?H2, ?H3; cbn; rewrite ?Hrc1, ?Hrc2; done. }
  match goal with |- context [check_service_health ?m ?w'] =>
    destruct (check_service_health_run m w') as (evs & r & -> & Hs & _) end.
  destruct r as [[]|e]; [|destruct e]; py.
  all: eexists _, _; (split; [reflexivity|]); right; right; eexists _, _, _;
    rewrite ?H1, ?H2, ?H3; unfold spawns in *; cbn; rewrite ?omap_app, ?Hs; cbn; rewrite ?Hrc1, ?Hrc2; done.
Qed.

Lemma quiet_grown w evs : quiet w -> quiet (grown w evs).
Proof. done. Qed.

Ltac tame_done :=
  do 3 eexists; split; [reflexivity|first [assumption|done]].

Lemma tame_ret {S A} (a : A) : tame (S := S) (ret a).
Proof. intros s w _. exists s, [], (Val a). by rewrite grown_nil. Qed.

Lemma tame_bind {S A B} (m : Py S A) (f : A -> Py S B) :
  tame m -> (forall a, tame (f a)) -> tame (bind m f).
Proof.
  intros Hm Hf s w Hq. unfold bind.
  destruct (Hm s w Hq) as (s1 & e1 & r1 & -> & Hr1).
  destruct r1 as [a|e].
  - destruct (Hf a s1 (grown w e1) (quiet_grown _ _ Hq)) as (s2 & e2 & r2 & -> & Hr2).
    rewrite grown_grown. tame_done.
  - do 3 eexists. split; [reflexivity|]. intros c [= ->]. by eapply Hr1.
Qed.

Lemma tame_try {S A} (m : Py S A) h :
  tame m -> (forall e k, h e = Some k -> tame k) -> tame (try_except m h).
Proof.
  intros Hm Hh s w Hq. unfold try_except.
  destruct (Hm s w Hq) as (s1 & e1 & r1 & -> & Hr1).
  destruct r1 as [a|e]; [tame_done|].
  destruct (h e) as [k|] eqn:Hk; [|tame_done].
  destruct (Hh e k Hk s1 (grown w e1) (quiet_grown _ _ Hq)) as (s2 & e2 & r2 & -> & Hr2).
  rewrite grown_grown. tame_done.
Qed.

Lemma tame_emit {S} ev : tame (S := S) (emit ev).
Proof. intros s w _. unfold emit. tame_done. Qed.

Lemma tame_spawn {S} cmd chk : tame (S := S) (subprocess_run cmd chk).
Proof.
  intros s w Hq. unfold subprocess_run.
  destruct (spawn_result w _ _) as [rc out|e] eqn:H.
  - destruct (chk && negb (rc =? 0)%Z); tame_done.
  - do 3 eexists. split; [done|]. intros c [= ->]. by eapply Hq.
Qed.

Lemma tame_exists {S} p : tame (S := S) (os_path_exists p).
Proof. intros s w _. exists s, [], (Val (bool_decide (is_Some (files w !! p)))). by rewrite grown_nil. Qed.

Lemma tame_get {S} : tame (S := S) get_self.
Proof. intros s w _. exists s, [], (Val s). by rewrite grown_nil. Qed.

Lemma tame_set {S} s' : tame (S := S) (set_self s').
Proof. intros s w _. exists s', [], (Val tt). by rewrite grown_nil. Qed.

Ltac tame_step :=
  first
    [ apply tame_ret | apply tame_emit | apply tame_spawn | apply tame_exists
    | apply tame_get | apply tame_set
    | apply tame_bind; [|intros ?]
    | apply tame_try; [|intros ? ? ?] ].

Ltac tame_auto :=
  repeat (unfold mret, mbind, Py_ret, Py_bind, print, print_info, print_success,
            print_warning, print_error, sleep; cbn beta;
          first [ tame_step
                | match goal with
                  | |- tame (if ?b then _ else _) => destruct b
                  | |- tame (match ?x with _ => _ end) => destruct x
                  | H : match ?e with _ => _ end = Some _ |- _ => destruct e; try discriminate H
                  | H : Some _ = Some _ |- _ => injection H as <-
                  end ]).

Lemma tame_wait_for_docker n : tame (S := Manager) (wait_for_docker n).
Proof. induction n; cbn [wait_for_docker]; tame_auto. exact IHn. Qed.

Lemma tame_check_prerequisites : tame check_prerequisites.
Proof.
  unfold check_prerequisites, check_docker. tame_auto; apply tame_wait_for_docker.
Qed.

Lemma printed_error_intro ev evs :
  In ev evs ->
  match ev with Out Error _ | Traceback _ => True | _ => False end ->
  printed_error evs = true.
Proof.
  intros Hin Hev. apply existsb_exists. exists ev. split; [done|].
  by destruct ev as [| | |[]| | |].
Qed.

Ltac in_list :=
  repeat (first [rewrite in_app_iff | progress cbn]); auto 10.

Lemma init_run w :
  exists arm,
    init tt w =
    (tt, grown w [Spawn ["uname"; "-m"] (spawn_result w (length (log w)) ["uname"; "-m"])],
     Val {| is_apple_silicon := arm;
            docker_platform := if arm then "linux/arm64" else "linux/amd64";
            compose_file := "docker-compose.mac.yaml";
            running_processes := [] |}).
Proof.
  unfold init, detect_apple_silicon. py.
  destruct (spawn_result w _ _) as [rc out|e]; py;
    [by exists (String.eqb (strip out) "arm64") | by exists false].
Qed.

#[local] Arguments init : simpl never.
#[local] Arguments check_prerequisites : simpl never.
#[local] Arguments String.eqb : simpl nomatch.

Lemma init_run_exact w :
  let r0 := spawn_result w (length (log w)) ["uname"; "-m"] in
  let arm := match r0 with
             | Exited _ out => String.eqb (strip out) "arm64"
             | Raises _ => false
             end in
  init tt w =
  (tt, grown w [Spawn ["uname"; "-m"] r0],
   Val {| is_apple_silicon := arm;
          docker_platform := if arm then "linux/arm64" else "linux/amd64";
          compose_file := "docker-compose.mac.yaml";
          running_processes := [] |}).
Proof.
  cbn zeta. unfold init, detect_apple_silicon. py.
  destruct (spawn_result w _ _) as [rc out|e]; py; reflexivity.
Qed.

(** C9 (as the code has it): the platform is tested before the command.
    On a Mac, with no positional argument [main] does what it does for
    [start]; [help] prints the usage text and ends with status 0 after the
    constructor's [uname -m] alone, no prerequisite being checked; for a
    command that is not known the prerequisites are checked first, and the
    run ends with [Unknown command] printed and status 1 when they are met,
    with [Prerequisites not met] printed and status 1 when they are not,
    and as an uncaught exception would when the check raises.  On any
    other system every command, [help] included, ends with two printed
    lines and status 1. *)
Theorem cli_dispatch w w' :
  platform_system w = "Darwin" -> platform_system w' <> "Darwin" ->
  let r0 := spawn_result w (length (log w)) ["uname"; "-m"] in
  let arm := match r0 with
             | Exited _ out => String.eqb (strip out) "arm64"
             | Raises _ => false
             end in
  let m0 := {| is_apple_silicon := arm;
               docker_platform := if arm then "linux/arm64" else "linux/amd64";
               compose_file := "docker-compose.mac.yaml";
               running_processes := [] |} in
  let banner := "Mac Service Manager" +:+ nl +:+ "Architecture: "
                +:+ (if arm then "Apple Silicon (ARM64)" else "Intel (x86_64)") in
  let bold := String "027"%char "[1m" in
  let cyan := String "027"%char "[96m" in
  let endc := String "027"%char "[0m" in
  (forall argv prog, argv !! 1%nat = None -> main argv = main [prog; "start"])
  /\ (forall argv, argv !! 1%nat = Some "help" ->
        run_script (main argv) tt w
        = (grown w
             [Spawn ["uname"; "-m"] r0;
              Out Plain
                (nl +:+ bold +:+ "Suna Mac Service Manager" +:+ endc +:+ nl +:+
                 nl +:+ cyan +:+ "Usage:" +:+ endc +:+ nl +:+
                 "  python start_mac.py [command]" +:+ nl +:+
                 nl +:+ cyan +:+ "Commands:" +:+ endc +:+ nl +:+
                 "  start     Start all Suna services (default)" +:+ nl +:+
                 "  stop      Stop all Suna services" +:+ nl +:+
                 "  restart   Restart all Suna services" +:+ nl +:+
                 "  status    Show service status" +:+ nl +:+
                 "  logs      Show service logs" +:+ nl +:+
                 "  follow    Follow service logs in real-time" +:+ nl +:+
                 "  open      Open Suna in browser" +:+ nl +:+
                 "  info      Show system information" +:+ nl +:+
                 "  cleanup   Clean up Docker resources" +:+ nl +:+
                 "  help      Show this help message" +:+ nl +:+
                 nl +:+ cyan +:+ "Examples:" +:+ endc +:+ nl +:+
                 "  python start_mac.py              # Start services" +:+ nl +:+
                 "  python start_mac.py status       # Check status" +:+ nl +:+
                 "  python start_mac.py logs backend # Show backend logs" +:+ nl +:+
                 "  python start_mac.py follow       # Follow all logs" +:+ nl +:+
                 "  python start_mac.py cleanup      # Clean up Docker" +:+ nl +:+
                 nl +:+ cyan +:+ "Mac-Specific Features:" +:+ endc +:+ nl +:+
                 "  • Automatic Docker Desktop startup" +:+ nl +:+
                 "  • Architecture detection (Intel/Apple Silicon)" +:+ nl +:+
                 "  • Optimized resource allocation" +:+ nl +:+
                 "  • Mac-specific health checks" +:+ nl +:+
                 nl +:+ cyan +:+ "Troubleshooting:" +:+ endc +:+ nl +:+
                 "  • If services fail to start, check Docker Desktop" +:+ nl +:+
                 "  • Use 'python start_mac.py cleanup' to free up space" +:+ nl +:+
                 "  • Check logs with 'python start_mac.py logs'" +:+ nl +:+
                 "  • Restart Docker Desktop if needed" +:+ nl +:+
                 nl +:+ cyan +:+ "Documentation:" +:+ endc +:+ nl +:+
                 "  • Mac Guide: docs/MAC-DEPLOYMENT.md" +:+ nl +:+
                 "  • General Guide: docs/SELF-HOSTING.md" +:+ nl +:+
                 "  • Discord: https://discord.gg/Py6pCBUUPw" +:+ nl)], 0%Z))
  /\ (forall argv c, argv !! 1%nat = Some c -> c ∉ commands ->
        match check_prerequisites m0
                (grown w [Spawn ["uname"; "-m"] r0; Out Plain banner]) with
        | (_, w1, Val true) =>
            run_script (main argv) tt w
            = (grown w1
                 [Out Error ("Unknown command: " +:+ c);
                  Out Info "Use 'python start_mac.py help' for available commands"],
               1%Z)
        | (_, w1, Val false) =>
            run_script (main argv) tt w
            = (grown w1
                 [Out Error "Prerequisites not met. Please fix the issues above."],
               1%Z)
        | (_, w1, Exc e) =>
            run_script (main argv) tt w = run_script (raise e) tt w1
        end)
  /\ (forall argv,
        run_script (main argv) tt w'
        = (grown w' [Out Error "This script is designed for macOS only.";
                     Out Info "For other platforms, use: python start.py"],
           1%Z)).
Proof.
  intros Hmac Hother r0 arm m0 banner bold cyan endc.
  pose proof (init_run_exact w) as Hi. cbn zeta in Hi.
  fold r0 in Hi. fold arm in Hi. fold m0 in Hi.
  split_and!.
  - intros argv prog H. unfold main, dispatch. rewrite H. reflexivity.
  - intros argv H.
    unfold run_script, main, dispatch, with_object. py.
    rewrite Hmac, H. cbn. rewrite Hi. cbn. unfold show_help. py. reflexivity.
  - intros argv c H Hc.
    assert (Hne : forall x, x ∈ commands -> String.eqb c x = false).
    { intros x Hx. apply String.eqb_neq. intros ->. done. }
    unfold run_script, main, dispatch, with_object. py.
    rewrite Hmac, H. cbn. rewrite Hi. cbn.
    rewrite !Hne by (unfold commands; set_solver). cbn.
    unfold print_banner. py.
    change (arch_info m0) with
      (if arm then "Apple Silicon (ARM64)" else "Intel (x86_64)").
    fold banner.
    destruct (check_prerequisites m0 _) as [[m1 w1] [[]|e]]; py;
      [reflexivity|reflexivity|destruct e; reflexivity].
  - intros argv. apply String.eqb_neq in Hother.
    unfold run_script, main. py. rewrite Hother. py. reflexivity.
Qed.


(** C5: on a Mac without the [docker] binary, [start] ends with status 1
    because [FileNotFoundError] leaves [check_prerequisites] uncaught: the
    last thing printed is the traceback, and no line about Docker is
    printed. *)
Theorem start_without_docker w prog :
  platform_system w = "Darwin" ->
  (forall t args, spawn_result w t ("docker" :: args) = Raises FileNotFoundError) ->
  exists r banner,
    run_script (main [prog; "start"]) tt w
    = (grown w [Spawn ["uname"; "-m"] r; Out Plain banner;
                Out Info "Checking prerequisites...";
                Spawn ["docker"; "info"] (Raises FileNotFoundError);
                Traceback FileNotFoundError], 1%Z).
Proof.
  intros Hmac Hno. destruct (init_run w) as (arm & Hi).
  unfold run_script, main, dispatch, with_object. py.
  rewrite Hmac. cbn. rewrite Hi. cbn.
  unfold print_banner, check_prerequisites, check_docker, docker_info_cmd. py.
  rewrite Hno. py. eauto.
Qed.

Lemma signal_handler_run m w :
  exists r1 evs res,
    signal_handler m w = (m, grown w evs, res)
    /\ spawns evs = [(down (compose_file m), r1)]
    /\ ((forall e, r1 = Raises e -> e = CalledProcessError) ->
        res = Exc (SystemExit 0))
    /\ (forall e, r1 = Raises e -> e <> CalledProcessError -> res = Exc e).
Proof.
  unfold signal_handler, stop_services. py.
  case_spawn H1; py.
  - destruct (rc =? 0)%Z; py; do 3 eexists; (split; [reflexivity|]);
      cbn; rewrite ?H1; split_and!; try done; by intros e [=].
  - destruct e; py; do 3 eexists; (split; [reflexivity|]);
      cbn; rewrite ?H1; split_and!; try done;
      first [ by intros He; specialize (He _ eq_refl)
            | by intros e' [= <-] ? ].
Qed.

Ltac probe_case :=
  rewrite check_one_run; cbn zeta; py;
  match goal with
  | |- context [probe_exn ?r] =>
      let e := fresh "e" in
      destruct (probe_exn r) as [e|] eqn:?; [destruct (is_Exception e) eqn:?|]
  end; py.

Lemma check_service_health_cases m w :
  let r1 := http_result_at w (length (log w) + 1) "http://localhost:3000" in
  let r2 := http_result_at w (length (log w) + 3) "http://localhost:8000/health" in
  exists evs r,
    check_service_health m w = (m, grown w evs, r)
    /\ spawns evs = [] /\ sleeps evs = []
    /\ (exists n, map fst (probes evs) = take n (map snd services))
    /\ (r = Val tt ->
        evs = [Out Info "Checking service health...";
               UrlOpen "http://localhost:3000" 10 r1; verdict "Frontend" r1;
               UrlOpen "http://localhost:8000/health" 10 r2; verdict "Backend" r2]).
Proof.
  intros r1 r2. subst r1 r2.
  unfold check_service_health, services, for_each, verdict. py.
  probe_case; [probe_case| |probe_case].
  all: eexists _, _; (split; [reflexivity|]); split_and!; try done;
    try (by exists 2%nat); try (by exists 1%nat).
  all: intros _;
    repeat match goal with H : probe_exn _ = _ |- _ => rewrite H; clear H end;
    reflexivity.
Qed.

(** A restart on a Mac where everything works spawns three commands:
    [down], then [pull] and [up -d]. *)
Lemma restart_spawns_counterexample :
  let run := restart_services Samples.manager Samples.mac in
  let cf := "docker-compose.mac.yaml" in
  run.2 = Val true
  /\ map fst (spawns (log run.1.2)) = [down cf; pull cf; up cf]
  /\ length (spawns (log run.1.2)) = 3%nat.
Proof. vm_compute. done. Qed.

Lemma cli_dispatch_witness :
  let w := Samples.mac in
  let r0 := spawn_result w (length (log w)) ["uname"; "-m"] in
  let arm := match r0 with
             | Exited _ out => String.eqb (strip out) "arm64"
             | Raises _ => false
             end in
  let m0 := {| is_apple_silicon := arm;
               docker_platform := if arm then "linux/arm64" else "linux/amd64";
               compose_file := "docker-compose.mac.yaml";
               running_processes := [] |} in
  let banner := "Mac Service Manager" +:+ nl +:+ "Architecture: "
                +:+ (if arm then "Apple Silicon (ARM64)" else "Intel (x86_64)") in
  let bold := String "027"%char "[1m" in
  let cyan := String "027"%char "[96m" in
  let endc := String "027"%char "[0m" in
  (forall argv prog, argv !! 1%nat = None -> main argv = main [prog; "start"])
  /\ (forall argv, argv !! 1%nat = Some "help" ->
        run_script (main argv) tt w
        = (grown w
             [Spawn ["uname"; "-m"] r0;
              Out Plain
                (nl +:+ bold +:+ "Suna Mac Service Manager" +:+ endc +:+ nl +:+
                 nl +:+ cyan +:+ "Usage:" +:+ endc +:+ nl +:+
                 "  python start_mac.py [command]" +:+ nl +:+
                 nl +:+ cyan +:+ "Commands:" +:+ endc +:+ nl +:+
                 "  start     Start all Suna services (default)" +:+ nl +:+
                 "  stop      Stop all Suna services" +:+ nl +:+
                 "  restart   Restart all Suna services" +:+ nl +:+
                 "  status    Show service status" +:+ nl +:+
                 "  logs      Show service logs" +:+ nl +:+
                 "  follow    Follow service logs in real-time" +:+ nl +:+
                 "  open      Open Suna in browser" +:+ nl +:+
                 "  info      Show system information" +:+ nl +:+
                 "  cleanup   Clean up Docker resources" +:+ nl +:+
                 "  help      Show this help message" +:+ nl +:+
                 nl +:+ cyan +:+ "Examples:" +:+ endc +:+ nl +:+
                 "  python start_mac.py              # Start services" +:+ nl +:+
                 "  python start_mac.py status       # Check status" +:+ nl +:+
                 "  python start_mac.py logs backend # Show backend logs" +:+ nl +:+
                 "  python start_mac.py follow       # Follow all logs" +:+ nl +:+
                 "  python start_mac.py cleanup      # Clean up Docker" +:+ nl +:+
                 nl +:+ cyan +:+ "Mac-Specific Features:" +:+ endc +:+ nl +:+
                 "  • Automatic Docker Desktop startup" +:+ nl +:+
                 "  • Architecture detection (Intel/Apple Silicon)" +:+ nl +:+
                 "  • Optimized resource allocation" +:+ nl +:+
                 "  • Mac-specific health checks" +:+ nl +:+
                 nl +:+ cyan +:+ "Troubleshooting:" +:+ endc +:+ nl +:+
                 "  • If services fail to start, check Docker Desktop" +:+ nl +:+
                 "  • Use 'python start_mac.py cleanup' to free up space" +:+ nl +:+
                 "  • Check logs with 'python start_mac.py logs'" +:+ nl +:+
                 "  • Restart Docker Desktop if needed" +:+ nl +:+
                 nl +:+ cyan +:+ "Documentation:" +:+ endc +:+ nl +:+
                 "  • Mac Guide: docs/MAC-DEPLOYMENT.md" +:+ nl +:+
                 "  • General Guide: docs/SELF-HOSTING.md" +:+ nl +:+
                 "  • Discord: https://discord.gg/Py6pCBUUPw" +:+ nl)], 0%Z))
  /\ (forall argv c, argv !! 1%nat = Some c -> c ∉ commands ->
        match check_prerequisites m0
                (grown w [Spawn ["uname"; "-m"] r0; Out Plain banner]) with
        | (_, w1, Val true) =>
            run_script (main argv) tt w
            = (grown w1
                 [Out Error ("Unknown command: " +:+ c);
                  Out Info "Use 'python start_mac.py help' for available commands"],
               1%Z)
        | (_, w1, Val false) =>
            run_script (main argv) tt w
            = (grown w1
                 [Out Error "Prerequisites not met. Please fix the issues above."],
               1%Z)
        | (_, w1, Exc e) =>
            run_script (main argv) tt w = run_script (raise e) tt w1
        end)
  /\ (forall argv,
        run_script (main argv) tt Samples.linux
        = (grown Samples.linux
             [Out Error "This script is designed for macOS only.";
              Out Info "For other platforms, use: python start.py"],
           1%Z)).
Proof.
  apply (cli_dispatch Samples.mac Samples.linux).
  - reflexivity.
  - intros H. discriminate H.
Defined.

(** Off macOS [help] prints no usage and ends with status 1; and on a Mac
    without the [docker] binary a command that is not known ends with
    status 1 without any error line having been printed. *)
Lemma cli_dispatch_counterexample :
  let help := run_script (main ["start_mac.py"; "help"]) tt Samples.linux in
  let bogus := run_script (main ["start_mac.py"; "bogus"]) tt
                 Samples.mac_without_docker in
  help.2 = 1%Z
  /\ log help.1 = [Out Error "This script is designed for macOS only.";
                   Out Info "For other platforms, use: python start.py"]
  /\ bogus.2 = 1%Z
  /\ existsb (fun ev => match ev with Out Error _ => true | _ => false end)
       (log bogus.1) = false
  /\ last (log bogus.1) = Some (Traceback FileNotFoundError).
Proof. vm_compute. done. Qed.

Lemma start_without_docker_witness :
  exists r banner,
    run_script (main ["start_mac.py"; "start"]) tt Samples.mac_without_docker
    = (grown Samples.mac_without_docker
         [Spawn ["uname"; "-m"] r; Out Plain banner;
          Out Info "Checking prerequisites...";
          Spawn ["docker"; "info"] (Raises FileNotFoundError);
          Traceback FileNotFoundError], 1%Z).
Proof.
  apply (start_without_docker Samples.mac_without_docker "start_mac.py").
  - reflexivity.
  - intros t args. reflexivity.
Defined.

End StartMacFacts.

Module SetupMacFacts.
Import SetupMac.

Lemma ran_app a b : ran (a ++ b) = ran a ++ ran b.
Proof. apply omap_app. Qed.
Lemma saved_app a b : saved (a ++ b) = saved a ++ saved b.
Proof. apply omap_app. Qed.
Lemma ok_entries_app a b : ok_entries (a ++ b) = ok_entries a ++ ok_entries b.
Proof. apply map_app. Qed.
Lemma ran_Ran f b j : ran (Ran f b :: j) = (f, b) :: ran j.
Proof. done. Qed.
Lemma ran_Saved n j : ran (Saved n :: j) = ran j.
Proof. done. Qed.
Lemma ran_Cleaned j : ran (Cleaned :: j) = ran j.
Proof. done. Qed.
Lemma ran_nil : ran [] = [].
Proof. done. Qed.
Lemma saved_Ran f b j : saved (Ran f b :: j) = saved j.
Proof. done. Qed.
Lemma saved_Saved n j : saved (Saved n :: j) = n :: saved j.
Proof. done. Qed.
Lemma saved_Cleaned j : saved (Cleaned :: j) = saved j.
Proof. done. Qed.
Lemma saved_nil : saved [] = [].
Proof. done. Qed.

#[local] Arguments ran : simpl never.
#[local] Arguments saved : simpl never.
#[local] Arguments ok_entries : simpl never.

Ltac jn :=
  rewrite ?ran_app, ?saved_app, ?ran_Ran, ?ran_Saved, ?ran_Cleaned, ?ran_nil,
    ?saved_Ran, ?saved_Saved, ?saved_Cleaned, ?saved_nil.

Section Orchestrator.
Variable keeps : bool.
Variable body : Step.name -> Py Wizard bool.

Lemma run_calls_spec cs : forall o w,
  exists o' w' r j,
    run_calls body cs o w = (o', w', r)
    /\ journal o' = journal o ++ j
    /\ current_step o' = current_step o /\ progress o' = progress o
    /\ saved j = []
    /\ ((r = Val None /\ ran j = ok_entries cs)
        \/ (aborted r false
            /\ exists pre c rest, cs = pre ++ c :: rest
                 /\ ran j = ok_entries pre ++ [(callee c, false)])).
Proof.
  induction cs as [|c cs IH]; intros o w.
  - exists o, w, (Val None), []. cbn. rewrite app_nil_r. split_and!; auto.
  - cbn [run_calls]. unfold mbind, Py_bind, bind, invoke.
    destruct (body (callee c) (wizard o) w) as [[z w1] [b|e]].
    + destruct (on_false c) as [msg|]; [destruct b|].
      2:{ py. do 2 eexists. exists (Val (Some false)), [Ran (callee c) false].
          cbn. split_and!; auto. right. split; [by left|].
          by exists [], c, cs. }
      all: cbn;
        destruct (IH (note (Ran (callee c) true) (set_wizard z o)) w1)
          as (o' & w' & r & j & -> & Hj & Hc & Hp & Hs & Hr);
        exists o', w', r, (Ran (callee c) true :: j); cbn in Hj, Hc, Hp; jn;
        split_and!; auto; [by rewrite Hj, <- app_assoc|];
        destruct Hr as [[-> Hr]|[Ha (pre & c0 & rest & -> & Hr)]];
        [left; split; [done|by rewrite Hr]
        |right; split; [done|]; exists (c :: pre), c0, rest; by rewrite Hr].
    + do 2 eexists. exists (Exc e), [Ran (callee c) false].
      cbn. split_and!; auto. right. split; [right; eauto|].
      by exists [], c, cs.
Qed.


Lemma passing_cons_true k b bs :
  (k <= idx b)%Z -> passing k (b :: bs) = b :: passing k bs.
Proof. intros. unfold passing. by rewrite filter_cons_True. Qed.

Lemma passing_cons_false k b bs :
  ~ (k <= idx b)%Z -> passing k (b :: bs) = passing k bs.
Proof. intros. unfold passing. by rewrite filter_cons_False. Qed.

Lemma run_block_eq b o w :
  run_block keeps body b o w =
  if (current_step o <=? idx b)%Z then
    match run_calls body (calls b) o w with
    | (o1, w1, Val None) =>
        ({| current_step := if keeps then idx b + 1 else current_step o1;
            wizard := wizard o1;
            progress := Some {| p_current_step := idx b + 1;
                                p_collected := env_vars (wizard o1);
                                p_updated_at := Z.of_nat (length (log w1)) |};
            journal := journal o1 ++ [Saved (idx b)] |}, w1, Val None)
    | (o1, w1, Val (Some x)) => (o1, w1, Val (Some x))
    | (o1, w1, Exc e) => (o1, w1, Exc e)
    end
  else (o, w, Val None).
Proof.
  unfold run_block, mbind, Py_bind, bind, get_self. cbn.
  destruct (current_step o <=? idx b)%Z; [|done].
  destruct (run_calls body (calls b) o w) as [[o1 w1] [[x|]|e]]; done.
Qed.

Lemma run_blocks_cons b bs o w :
  run_blocks keeps body (b :: bs) o w =
  match run_block keeps body b o w with
  | (o1, w1, Val None) => run_blocks keeps body bs o1 w1
  | (o1, w1, Val (Some x)) => (o1, w1, Val (Some x))
  | (o1, w1, Exc e) => (o1, w1, Exc e)
  end.
Proof.
  cbn [run_blocks]. unfold mbind, Py_bind, bind.
  destruct (run_block keeps body b o w) as [[o1 w1] [[x|]|e]]; done.
Qed.





Lemma run_blocks_spec k bs :
  increasing bs -> forall o w,
  (forall b, b ∈ bs -> (current_step o <= idx b)%Z <-> (k <= idx b)%Z) ->
  exists o' w' r j,
    run_blocks keeps body bs o w = (o', w', r)
    /\ journal o' = journal o ++ j
    /\ persisted o' = latest o j
    /\ ((r = Val None
         /\ ran j = ok_entries (flat_map calls (passing k bs))
         /\ saved j = map idx (passing k bs))
        \/ (aborted r false
            /\ exists bs1 b bs2 pre c rest,
                 bs = bs1 ++ b :: bs2 /\ (k <= idx b)%Z
                 /\ calls b = pre ++ c :: rest
                 /\ ran j = ok_entries (flat_map calls (passing k bs1) ++ pre)
                            ++ [(callee c, false)]
                 /\ saved j = map idx (passing k bs1))).
Proof.
  induction 1 as [|b bs Hsorted IH Hlt]; intros o w Hguard.
  - exists o, w, (Val None), []. unfold latest. cbn. rewrite app_nil_r.
    split_and!; auto.
  - rewrite run_blocks_cons, run_block_eq.
    assert (Hb : (current_step o <= idx b)%Z <-> (k <= idx b)%Z)
      by (apply Hguard; left).
    destruct (Z.leb_spec (current_step o) (idx b)) as [Hle|Hgt].
    + assert (Hk : (k <= idx b)%Z) by tauto.
      destruct (run_calls_spec (calls b) o w)
        as (o1 & w1 & r1 & j1 & -> & Hj1 & Hc1 & Hp1 & Hs1 & Hr1).
      destruct Hr1 as [[-> Hr1]|[Ha (pre & c & rest & Hcs & Hr1)]].
      * match goal with |- context [run_blocks _ _ bs ?o2 ?w2] =>
          destruct (IH o2 w2) as (o' & w' & r & j & -> & Hj & Hp & Hr) end.
        { intros b' Hb'. cbn.
          assert ((idx b < idx b')%Z)
            by (rewrite Forall_forall in Hlt; by apply Hlt).
          split; [lia|]. intros _. destruct keeps; [lia|].
          rewrite Hc1. apply Hguard; [by right|lia]. }
        exists o', w', r, (j1 ++ Saved (idx b) :: j). cbn in Hj. jn.
        rewrite Hs1, Hr1, passing_cons_true by done. cbn [flat_map map app].
        split_and!; auto.
        -- by rewrite Hj, Hj1, <- !app_assoc.
        -- rewrite Hp. unfold latest, persisted. cbn. jn. rewrite Hs1. cbn [app].
           destruct (saved j) as [|n l _] using rev_ind; [done|].
           by rewrite app_comm_cons, !last_snoc.
        -- destruct Hr as [(-> & Hr & Hs)|(Ha & bs1 & b1 & bs2 & pre & c & rest
                                            & -> & Hk1 & Hcs & Hr & Hs)].
           ++ left. rewrite Hr, Hs, ok_entries_app. done.
           ++ right. split; [done|].
              exists (b :: bs1), b1, bs2, pre, c, rest.
              rewrite passing_cons_true by done. cbn [flat_map map].
              rewrite Hr, Hs, !ok_entries_app, <- !app_assoc. done.
      * exists o1, w1, r1, j1.
        split_and!; auto.
        -- destruct Ha as [->|[e ->]]; done.
        -- unfold latest, persisted. by rewrite Hs1, Hp1.
        -- right. split; [done|]. exists [], b, bs, pre, c, rest.
           cbn. split_and!; auto.
    + assert (Hk : ~ (k <= idx b)%Z) by (intros ?; apply Hb in H; lia).
      destruct (IH o w) as (o' & w' & r & j & -> & Hj & Hp & Hr).
      { intros b' Hb'. apply Hguard. by right. }
      exists o', w', r, j. rewrite passing_cons_false by done.
      split_and!; auto.
      destruct Hr as [?|(Ha & bs1 & b1 & bs2 & pre & c & rest
                          & -> & Hk1 & Hcs & Hr & Hs)]; [by left|].
      right. split; [done|]. exists (b :: bs1), b1, bs2, pre, c, rest.
      rewrite passing_cons_false by done. done.
Qed.


Lemma preamble_run {A} o w :
  exists evs o1,
    current_step o1 = resume_point o /\ journal o1 = journal o
    /\ progress o1 = progress o
    /\ forall k : Py Orch A,
         (print_mac_banner;; load_progress;; k) o w = k o1 (grown w evs).
Proof.
  unfold print_mac_banner, get_macos_version, load_progress, resume_point. py.
  destruct (spawn_result w _ _) as [rc out|e]; py;
    (destruct (progress o) as [p|] eqn:Hp; do 2 eexists;
     (split_and!; [..|intros k; reflexivity]); cbn; done).
Qed.



Lemma blocks_increasing : increasing blocks.
Proof.
  unfold increasing, blocks.
  repeat first [ apply SSorted_nil | apply SSorted_cons
               | apply List.Forall_nil | apply List.Forall_cons | by cbn ].
Qed.


Lemma run_mac_setup_eq o w :
  run_mac_setup keeps body o w =
  try_except (print_mac_banner;; load_progress;; setup_steps keeps body) on_exception o w.
Proof.
  unfold run_mac_setup.
  destruct (preamble_run (A := bool) o w) as (evs & o1 & _ & _ & _ & Hk).
  rewrite Hk. unfold try_except at 2. rewrite Hk. done.
Qed.

Lemma finish_run o w :
  exists evs,
    (print_completion_message;; cleanup_progress;; mret true) o w
    = ({| current_step := current_step o; wizard := wizard o;
          progress := None; journal := journal o ++ [Cleaned] |},
       grown w evs, Val true).
Proof. unfold print_completion_message, cleanup_progress. pyg. by eexists. Qed.




Lemma setup_steps_eq o w :
  setup_steps keeps body o w =
  match run_blocks keeps body blocks o w with
  | (o1, w1, Val None) =>
      (print_completion_message;; cleanup_progress;; mret true) o1 w1
  | (o1, w1, Val (Some b)) => (o1, w1, Val b)
  | (o1, w1, Exc e) => (o1, w1, Exc e)
  end.
Proof.
  unfold setup_steps. unfold mbind at 1, Py_bind at 1, bind at 1.
  destruct (run_blocks keeps body blocks o w) as [[o1 w1] [[x|]|e]]; done.
Qed.

Lemma try_body_spec o w :
  let k := resume_point o in
  exists o' w' r j,
    (print_mac_banner;; load_progress;; setup_steps keeps body) o w = (o', w', r)
    /\ journal o' = journal o ++ j
    /\ ((r = Val true
         /\ ran j = ok_entries (flat_map calls (passing k blocks))
         /\ progress o' = None)
        \/ ((r = Val false \/ exists e, r = Exc e)
            /\ exists bs1 b bs2 pre c rest,
                 blocks = bs1 ++ b :: bs2 /\ (k <= idx b)%Z
                 /\ calls b = pre ++ c :: rest
                 /\ ran j = ok_entries (flat_map calls (passing k bs1) ++ pre)
                            ++ [(callee c, false)]
                 /\ saved j = map idx (passing k bs1)
                 /\ persisted o' = latest o j)).
Proof.
  intros k.
  destruct (preamble_run (A := bool) o w) as (evs & o1 & Hc & Hj1 & Hp1 & ->).
  rewrite setup_steps_eq.
  destruct (run_blocks_spec k blocks blocks_increasing o1 (grown w evs))
    as (o' & w' & r & j & -> & Hj & Hp & Hr).
  { intros b _. by rewrite Hc. }
  destruct Hr as [(-> & Hr & Hs)|(Ha & bs1 & b & bs2 & pre & c & rest
                                   & Hbs & Hk & Hcs & Hr & Hs)].
  - destruct (finish_run o' w') as (evs' & ->).
    do 2 eexists. exists (Val true), (j ++ [Cleaned]). jn.
    split_and!; [done|by cbn [journal]; rewrite Hj, Hj1, app_assoc|].
    left. by rewrite app_nil_r.
  - exists o', w'. destruct Ha as [->|[e ->]].
    + exists (Val false), j. split_and!; [done|by rewrite Hj, Hj1|].
      right. split; [by left|]. exists bs1, b, bs2, pre, c, rest.
      split_and!; auto. rewrite Hp. unfold latest, persisted. by rewrite Hp1.
    + exists (Exc e), j. split_and!; [done|by rewrite Hj, Hj1|].
      right. split; [right; eauto|]. exists bs1, b, bs2, pre, c, rest.
      split_and!; auto. rewrite Hp. unfold latest, persisted. by rewrite Hp1.
Qed.









(** What Ctrl-C during the steps leads to: two printed lines and exit
    status 1, and a progress record that names no block after the one that
    was interrupted. *)
Lemma interrupted_run o w o1 w1 :
  (print_mac_banner;; load_progress;; setup_steps keeps body) o w
    = (o1, w1, Exc KeyboardInterrupt) ->
  exit_with (run_mac_setup keeps body) o w
    = (o1, grown w1 [Out Plain interrupted_1; Out Plain interrupted_2],
       Exc (SystemExit 1))
  /\ exists j bs1 b bs2 c,
       journal o1 = journal o ++ j
       /\ blocks = bs1 ++ b :: bs2 /\ c ∈ calls b
       /\ last (ran j) = Some (callee c, false)
       /\ forall n, persisted o1 = Some n -> (n <= idx b)%Z.
Proof.
  intros H. split.
  - unfold exit_with. unfold mbind at 1, Py_bind at 1, bind at 1.
    rewrite run_mac_setup_eq. unfold try_except. rewrite H.
    unfold on_exception. pyg. reflexivity.
  - destruct (try_body_spec o w) as (o' & w' & r & j & Heq & Hj & Hr).
    rewrite H in Heq. injection Heq as <- <- <-.
    destruct Hr as [(? & _)|(_ & bs1 & b & bs2 & pre & c & rest
                             & Hbs & Hkb & Hcs & Hr & Hs & Hp)]; [done|].
    exists j, bs1, b, bs2, c. split_and!; auto.
    + rewrite Hcs. set_solver.
    + rewrite Hr. apply last_snoc.
    + intros n. rewrite Hp. unfold latest, persisted.
      destruct (last (saved j)) as [m|] eqn:Hlast.
      * intros [= <-]. apply last_Some_elem_of in Hlast.
        rewrite Hs in Hlast. apply list_elem_of_fmap in Hlast as (b' & -> & Hb').
        apply list_elem_of_filter in Hb' as [_ Hb'].
        pose proof blocks_increasing as Hinc. unfold increasing in Hinc.
        rewrite Hbs in Hinc.
        pose proof (StronglySorted_app_1_elem_of _ _ _ b' b Hinc Hb') as Hlt.
        assert (idx b' < idx b)%Z by (apply Hlt; left). lia.
      * unfold resume_point in Hkb.
        destruct (progress o) as [p|]; [|done]. by intros [= <-].
Qed.

End Orchestrator.



End SetupMacFacts.

Module EnvFileFacts.
Import SetupMac.

Lemma news_written w fs evs : news w (with_files fs (grown w evs)) = evs.
Proof. unfold news, grown, with_log, with_files. cbn. by rewrite drop_app_length. Qed.

Lemma news_grown w evs : news w (grown w evs) = evs.
Proof. unfold news, grown, with_log. cbn. by rewrite drop_app_length. Qed.

Lemma grown_with_files fs w evs :
  grown (with_files fs w) evs = with_files fs (grown w evs).
Proof. done. Qed.
Lemma with_files_with_files fs fs' w :
  with_files fs (with_files fs' w) = with_files fs w.
Proof. done. Qed.
Lemma files_with_files fs w : files (with_files fs w) = fs.
Proof. done. Qed.
Lemma writable_with_files fs w : writable (with_files fs w) = writable w.
Proof. done. Qed.
Lemma writable_grown w evs : writable (grown w evs) = writable w.
Proof. done. Qed.

Lemma write_text_run {S} p c (s : S) w :
  write_text p c s w =
  if writable w p
  then (s, with_files (<[p := c]> (files w))
             (grown w [FsOp (Truncate p); FsOp (Append p c)]), Val tt)
  else (s, w, Exc (OtherError "OSError")).
Proof.
  unfold write_text, do_op, bind. destruct (writable w p); [|done].
  cbn. rewrite lookup_insert_eq. cbn. rewrite insert_insert_eq.
  unfold grown, with_files, with_log. cbn. by rewrite <- app_assoc.
Qed.

#[local] Arguments backend_env_content : simpl never.
#[local] Arguments frontend_env_content : simpl never.
#[local] Arguments backend_env : simpl never.
#[local] Arguments frontend_env : simpl never.
#[local] Arguments write_text : simpl never.

Lemma category_of_run name z w :
  category_of name z w =
  match categories (env_vars z) !! name with
  | Some c => (z, w, Val c)
  | None => (z, w, Exc (KeyError name))
  end.
Proof. unfold category_of. py. by destruct (categories (env_vars z) !! name). Qed.

Lemma item_run d k z w :
  item d k z w =
  match dict_get k d with
  | Some v => (z, w, Val v)
  | None => (z, w, Exc (KeyError k))
  end.
Proof. unfold item. by destruct (dict_get k d). Qed.

Lemma configure_texts z w z' w' :
  configure_mac_env_files z w = (z', w', Val tt) ->
  exists method supabase llm search rapidapi smithery qstash mcp daytona url anon,
    setup_method (env_vars z) = Some method
    /\ categories (env_vars z) !! "supabase" = Some supabase
    /\ categories (env_vars z) !! "llm" = Some llm
    /\ categories (env_vars z) !! "search" = Some search
    /\ categories (env_vars z) !! "rapidapi" = Some rapidapi
    /\ categories (env_vars z) !! "smithery" = Some smithery
    /\ categories (env_vars z) !! "qstash" = Some qstash
    /\ categories (env_vars z) !! "mcp" = Some mcp
    /\ categories (env_vars z) !! "daytona" = Some daytona
    /\ dict_get "SUPABASE_URL" supabase = Some url
    /\ dict_get "SUPABASE_ANON_KEY" supabase = Some anon
    /\ z' = z
    /\ let tb := backend_env_content z method
                   (backend_env z method supabase llm search rapidapi smithery
                      qstash mcp daytona) in
       let tf := frontend_env_content z (frontend_env z url anon) in
       w' = with_files (<[frontend_path := tf]> (<[backend_path := tb]> (files w)))
              (grown w [StepHeader 11 (total_steps z) "Configuring Mac Environment Files";
                        FsOp (Truncate backend_path); FsOp (Append backend_path tb);
                        Out Success "Created backend/.env file with Mac optimizations";
                        FsOp (Truncate frontend_path); FsOp (Append frontend_path tf);
                        Out Success "Created frontend/.env.local file with Mac optimizations"]).
Proof.
  unfold configure_mac_env_files, print_step.
  unfold mbind, Py_bind, bind, get_self, mret, Py_ret, ret, raise, print_success, emit.
  cbn beta iota. intros H.
  destruct (setup_method (env_vars z)) as [method|] eqn:Hm; [|discriminate H].
  cbn beta iota in H.
  repeat (rewrite category_of_run in H;
          match type of H with
          | context [categories (env_vars z) !! ?k] =>
              destruct (categories (env_vars z) !! k) eqn:?; [|discriminate H]
          end; cbn beta iota in H).
  rewrite write_text_run in H.
  destruct (writable _ backend_path); [|discriminate H].
  cbn beta iota in H. rewrite !item_run in H.
  destruct (dict_get "SUPABASE_URL" _) as [url|] eqn:Hurl; [|discriminate H].
  cbn beta iota in H. rewrite !item_run in H.
  destruct (dict_get "SUPABASE_ANON_KEY" _) as [anon|] eqn:Hanon; [|discriminate H].
  cbn beta iota in H. rewrite write_text_run in H.
  destruct (writable _ frontend_path); [|discriminate H].
  rewrite ?grown_with_files, ?files_with_files, ?with_files_with_files,
    ?files_grown, ?grown_grown in H.
  injection H as <- <-.
  do 11 eexists. split_and!; try done.
Qed.

(** C7 (as the code has it): each env file is written in place, by
    truncating it and then writing the text; no temporary file is written
    and nothing is renamed.  A crash right after a truncation leaves a
    zero-length file where the previous one was. *)
Theorem env_files_overwritten_in_place z w z' w' :
  configure_mac_env_files z w = (z', w', Val tt) ->
  exists tb tf,
    fs_ops (news w w') = [Truncate backend_path; Append backend_path tb;
                          Truncate frontend_path; Append frontend_path tf]
    /\ files w' = replay (fs_ops (news w w')) (files w)
    /\ replay (take 1 (fs_ops (news w w'))) (files w) !! backend_path
        = Some EmptyString
    /\ replay (take 3 (fs_ops (news w w'))) (files w) !! frontend_path
        = Some EmptyString.
Proof.
  intros H.
  destruct (configure_texts _ _ _ _ H)
    as (method & sup & llm & search & rapid & smith & qs & mcp & day & url
        & anon & _ & _ & _ & _ & _ & _ & _ & _ & _ & _ & _ & _ & Hw).
  cbn zeta in Hw. subst w'. rewrite news_written, files_with_files.
  do 2 eexists. split; [reflexivity|].
  unfold fs_ops, replay. cbn -[insert lookup backend_path frontend_path].
  rewrite !lookup_insert_eq. cbn -[insert lookup backend_path frontend_path].
  rewrite !insert_insert_eq. done.
Qed.

Lemma env_files_overwritten_in_place_witness :
  let run := configure_mac_env_files Samples.wizard Samples.mac in
  exists tb tf,
    fs_ops (news Samples.mac run.1.2)
    = [Truncate backend_path; Append backend_path tb;
       Truncate frontend_path; Append frontend_path tf]
    /\ files run.1.2 = replay (fs_ops (news Samples.mac run.1.2)) (files Samples.mac)
    /\ replay (take 1 (fs_ops (news Samples.mac run.1.2))) (files Samples.mac)
          !! backend_path = Some EmptyString
    /\ replay (take 3 (fs_ops (news Samples.mac run.1.2))) (files Samples.mac)
          !! frontend_path = Some EmptyString.
Proof.
  intros run.
  apply (env_files_overwritten_in_place Samples.wizard Samples.mac run.1.1).
  vm_compute. reflexivity.
Defined.

(** The previous [backend/.env] is lost as soon as the file is opened: the
    text [OLD=1] is gone after the first operation, and no rename is among
    the operations. *)
Lemma env_file_truncated_counterexample :
  let run := configure_mac_env_files Samples.wizard Samples.mac in
  run.2 = Val tt
  /\ files Samples.mac !! backend_path = Some "OLD=1"
  /\ existsb (fun op => match op with Rename _ _ => true | _ => false end)
        (fs_ops (log run.1.2)) = false
  /\ replay (take 1 (fs_ops (log run.1.2))) (files Samples.mac) !! backend_path
      = Some EmptyString.
Proof. vm_compute. split_and!; reflexivity. Qed.

Lemma backend_env_agrees z1 z2 method a b c d e f g h :
  is_apple_silicon z1 = is_apple_silicon z2 ->
  homebrew_prefix z1 = homebrew_prefix z2 ->
  docker_platform z1 = docker_platform z2 ->
  backend_env_content z1 method (backend_env z1 method a b c d e f g h)
  = backend_env_content z2 method (backend_env z2 method a b c d e f g h).
Proof.
  intros Ha Hh Hd. unfold backend_env_content, backend_env.
  by rewrite Ha, Hh, Hd.
Qed.

Lemma frontend_env_agrees z1 z2 url anon :
  is_apple_silicon z1 = is_apple_silicon z2 ->
  frontend_env_content z1 (frontend_env z1 url anon)
  = frontend_env_content z2 (frontend_env z2 url anon).
Proof.
  intros Ha. unfold frontend_env_content, frontend_env. by rewrite Ha.
Qed.

(** C8: the text of the two env files is a function of the collected
    values and of the platform facts alone: two successful runs that agree
    on them, in whatever worlds, write the same bytes. *)
Theorem env_rendering_deterministic z1 z2 w1 w2 z1' w1' z2' w2' :
  env_vars z1 = env_vars z2 ->
  is_apple_silicon z1 = is_apple_silicon z2 ->
  homebrew_prefix z1 = homebrew_prefix z2 ->
  docker_platform z1 = docker_platform z2 ->
  configure_mac_env_files z1 w1 = (z1', w1', Val tt) ->
  configure_mac_env_files z2 w2 = (z2', w2', Val tt) ->
  fs_ops (news w1 w1') = fs_ops (news w2 w2')
  /\ files w1' !! backend_path = files w2' !! backend_path
  /\ files w1' !! frontend_path = files w2' !! frontend_path.
Proof.
  intros He Ha Hh Hd H1 H2.
  destruct (configure_texts _ _ _ _ H1)
    as (m1 & a1 & b1 & c1 & d1 & e1 & f1 & g1 & h1 & u1 & n1
        & Hm1 & Ha1 & Hb1 & Hc1 & Hd1 & He1 & Hf1 & Hg1 & Hh1 & Hu1 & Hn1
        & _ & Hw1).
  destruct (configure_texts _ _ _ _ H2)
    as (m2 & a2 & b2 & c2 & d2 & e2 & f2 & g2 & h2 & u2 & n2
        & Hm2 & Ha2 & Hb2 & Hc2 & Hd2 & He2 & Hf2 & Hg2 & Hh2 & Hu2 & Hn2
        & _ & Hw2).
  rewrite He in *.
  assert (m1 = m2) as -> by congruence. assert (a1 = a2) as -> by congruence.
  assert (b1 = b2) as -> by congruence. assert (c1 = c2) as -> by congruence.
  assert (d1 = d2) as -> by congruence. assert (e1 = e2) as -> by congruence.
  assert (f1 = f2) as -> by congruence. assert (g1 = g2) as -> by congruence.
  assert (h1 = h2) as -> by congruence.
  assert (u1 = u2) as -> by congruence. assert (n1 = n2) as -> by congruence.
  cbn zeta in Hw1, Hw2. subst w1' w2'.
  rewrite !news_written, !files_with_files.
  rewrite (backend_env_agrees z1 z2) by done.
  rewrite (frontend_env_agrees z1 z2) by done.
  split; [done|].
  rewrite !lookup_insert_eq, !(lookup_insert_ne _ frontend_path backend_path) by done.
  by rewrite !lookup_insert_eq.
Qed.

Lemma env_rendering_deterministic_witness :
  let z2 := set_total_steps 3 Samples.wizard in
  let run1 := configure_mac_env_files Samples.wizard Samples.mac in
  let run2 := configure_mac_env_files z2 Samples.mac_without_docker in
  fs_ops (news Samples.mac run1.1.2)
  = fs_ops (news Samples.mac_without_docker run2.1.2)
  /\ files run1.1.2 !! backend_path = files run2.1.2 !! backend_path
  /\ files run1.1.2 !! frontend_path = files run2.1.2 !! frontend_path.
Proof.
  intros z2 run1 run2.
  apply (env_rendering_deterministic Samples.wizard z2 Samples.mac
           Samples.mac_without_docker run1.1.1 run1.1.2 run2.1.1 run2.1.2);
    [reflexivity|reflexivity|reflexivity|reflexivity
    |vm_compute; reflexivity|vm_compute; reflexivity].
Defined.

End EnvFileFacts.

Module HealthFacts.

Lemma setup_check_one_run s z w :
  SetupMac.check_one s z w =
  (z, grown w [UrlOpen s.2 5 (http_result_at w (length (log w)) s.2);
               SetupMac.verdict s.1 (http_result_at w (length (log w)) s.2)],
   Val tt).
Proof.
  unfold SetupMac.check_one, SetupMac.verdict, answered_2xx. py.
  destruct (http_result_at w (length (log w)) s.2) as [c|e]; py; [|done].
  destruct ((200 <=? c)%Z && (c <? 300)%Z); py; done.
Qed.

Lemma setup_check_service_health_run z w :
  let r1 := http_result_at w (length (log w)) "http://localhost:3000" in
  let r2 := http_result_at w (length (log w) + 2) "http://localhost:8000/health" in
  SetupMac.check_service_health z w =
  (z, grown w [UrlOpen "http://localhost:3000" 5 r1;
               SetupMac.verdict "Frontend" r1;
               UrlOpen "http://localhost:8000/health" 5 r2;
               SetupMac.verdict "Backend" r2], Val tt).
Proof.
  intros r1 r2. subst r1 r2.
  unfold SetupMac.check_service_health, SetupMac.services, SetupMac.for_each. pyg.
  rewrite setup_check_one_run. pyg. rewrite setup_check_one_run. pyg.
  reflexivity.
Qed.

(** C6 (as the code has it): both health checks are one pass over the two
    services.  Each service is probed at most once, in order, with no sleep
    and no second attempt; a probe that fails is reported as not responding
    and the check goes on to the next service. *)
Theorem health_check_is_a_single_pass :
  (forall m w,
     let r1 := http_result_at w (length (log w) + 1) "http://localhost:3000" in
     let r2 := http_result_at w (length (log w) + 3)
                 "http://localhost:8000/health" in
     exists evs r,
       StartMac.check_service_health m w = (m, grown w evs, r)
       /\ spawns evs = [] /\ sleeps evs = []
       /\ (exists n, map fst (probes evs) = take n (map snd StartMac.services))
       /\ (r = Val tt ->
           evs = [Out Info "Checking service health...";
                  UrlOpen "http://localhost:3000" 10 r1;
                  StartMac.verdict "Frontend" r1;
                  UrlOpen "http://localhost:8000/health" 10 r2;
                  StartMac.verdict "Backend" r2]))
  /\ (forall z w,
        let r1 := http_result_at w (length (log w)) "http://localhost:3000" in
        let r2 := http_result_at w (length (log w) + 2)
                    "http://localhost:8000/health" in
        SetupMac.check_service_health z w =
        (z, grown w [UrlOpen "http://localhost:3000" 5 r1;
                     SetupMac.verdict "Frontend" r1;
                     UrlOpen "http://localhost:8000/health" 5 r2;
                     SetupMac.verdict "Backend" r2], Val tt)).
Proof.
  split.
  - exact StartMacFacts.check_service_health_cases.
  - exact setup_check_service_health_run.
Qed.

(** Where the specified poll would try three times and sleep twice, the
    code probes each service once and does not sleep; a backend that comes
    up a moment later is reported as not responding by the code and as
    healthy by the specified poll. *)
Lemma health_check_counterexample :
  let code := StartMac.check_service_health Samples.manager
                Samples.mac_services_down in
  let spec := HealthSpec.spec_poll 3 2 10
                (HealthSpec.descriptors StartMac.services) tt
                Samples.mac_services_down in
  let code' := StartMac.check_service_health Samples.manager
                 Samples.mac_backend_late in
  let spec' := HealthSpec.spec_poll 3 2 10
                 (HealthSpec.descriptors StartMac.services) tt
                 Samples.mac_backend_late in
  (length (probes (log code.1.2)) = 2%nat /\ sleeps (log code.1.2) = [])
  /\ (length (probes (log spec.1.2)) = 6%nat
      /\ sleeps (log spec.1.2) = [2; 2]%Z)
  /\ last (log code'.1.2)
     = Some (Out Warning "Backend is not responding: URLError")
  /\ spec'.2 = Val [].
Proof. vm_compute. done. Qed.

End HealthFacts.

Module TestMacFacts.
Import TestMac.

Lemma answered_200_spec r : answered_200 r = true <-> r = Status 200.
Proof.
  destruct r as [c|e]; cbn; [|done].
  rewrite Z.eqb_eq. split; [by intros ->|by intros [= ->]].
Qed.

Lemma probe_run {S} s (st : S) w :
  let r := http_result_at w (length (log w)) s.2 in
  (forall e, r = Fails e -> is_Exception e = true) ->
  exists msg,
    probe s st w
    = (st, grown w [UrlOpen s.2 5 r;
                    Out (if answered_200 r then Success else Warning) msg],
       Val (answered_200 r)).
Proof.
  intros r Hr. subst r. unfold probe, answered_200. py.
  destruct (http_result_at w (length (log w)) s.2) as [c|e]; py.
  - destruct (Z.leb_spec 200 c), (Z.ltb_spec c 300); py.
    + destruct (Z.eqb_spec c 200); py; eauto.
    + destruct (Z.eqb_spec c 200); [lia|]. eauto.
    + destruct (Z.eqb_spec c 200); [lia|]. eauto.
    + destruct (Z.eqb_spec c 200); [lia|]. eauto.
  - specialize (Hr e eq_refl). destruct e; try discriminate Hr; py; eauto.
Qed.

(** C10: if no probe is cut short by an interrupt, the connectivity test
    probes the frontend, the backend's [/health] and the backend's [/api]
    once each, in this order and each with a timeout of 5 seconds, prints
    one line per endpoint (a success line exactly for an answer with
    status 200), and passes exactly when at least one of the three
    answered with status 200. *)
Theorem connectivity_passes_iff_some_200 {S} (st : S) w :
  (forall t u e, http_result_at w t u = Fails e -> is_Exception e = true) ->
  let r1 := http_result_at w (length (log w)) "http://localhost:3000" in
  let r2 := http_result_at w (length (log w) + 2)
              "http://localhost:8000/health" in
  let r3 := http_result_at w (length (log w) + 4)
              "http://localhost:8000/api" in
  let lvl r := if answered_200 r then Success else Warning in
  exists m1 m2 m3 b,
    test_service_connectivity st w
    = (st, grown w [UrlOpen "http://localhost:3000" 5 r1; Out (lvl r1) m1;
                    UrlOpen "http://localhost:8000/health" 5 r2; Out (lvl r2) m2;
                    UrlOpen "http://localhost:8000/api" 5 r3; Out (lvl r3) m3],
       Val b)
    /\ (b = true <-> r1 = Status 200 \/ r2 = Status 200 \/ r3 = Status 200)
    /\ (forall r, answered_200 r = true <-> r = Status 200).
Proof.
  intros Hw r1 r2 r3 lvl. subst r1 r2 r3 lvl.
  unfold test_service_connectivity, services.
  cbn [count_accessible]. pyg.
  destruct (probe_run ("Frontend", "http://localhost:3000") st w)
    as (m1 & ->); [apply Hw|]. pyg.
  match goal with |- context [probe ?s ?st ?w'] =>
    destruct (probe_run s st w') as (m2 & ->); [apply Hw|] end. pyg.
  match goal with |- context [probe ?s ?st ?w'] =>
    destruct (probe_run s st w') as (m3 & ->); [apply Hw|] end. pyg.
  replace (length (log w) + 2 + 2)%nat with (length (log w) + 4)%nat by lia.
  exists m1, m2, m3. eexists. split; [reflexivity|].
  split; [|apply answered_200_spec].
  set (r1 := http_result_at w _ "http://localhost:3000").
  set (r2 := http_result_at w _ "http://localhost:8000/health").
  set (r3 := http_result_at w _ "http://localhost:8000/api").
  rewrite <- !answered_200_spec.
  destruct (answered_200 r1), (answered_200 r2), (answered_200 r3); cbn;
    intuition congruence.
Qed.

Lemma connectivity_passes_iff_some_200_witness :
  let w := Samples.mac_frontend_only in
  let r1 := http_result_at w (length (log w)) "http://localhost:3000" in
  let r2 := http_result_at w (length (log w) + 2)
              "http://localhost:8000/health" in
  let r3 := http_result_at w (length (log w) + 4)
              "http://localhost:8000/api" in
  let lvl r := if answered_200 r then Success else Warning in
  exists m1 m2 m3 b,
    test_service_connectivity tt w
    = (tt, grown w [UrlOpen "http://localhost:3000" 5 r1; Out (lvl r1) m1;
                    UrlOpen "http://localhost:8000/health" 5 r2; Out (lvl r2) m2;
                    UrlOpen "http://localhost:8000/api" 5 r3; Out (lvl r3) m3],
       Val b)
    /\ (b = true <-> r1 = Status 200 \/ r2 = Status 200 \/ r3 = Status 200)
    /\ (forall r, answered_200 r = true <-> r = Status 200).
Proof.
  apply (connectivity_passes_iff_some_200 tt Samples.mac_frontend_only).
  intros t u e. cbn. destruct (String.eqb u "http://localhost:3000").
  - intros H. discriminate H.
  - intros H. injection H as <-. reflexivity.
Defined.

End TestMacFacts.

Module InterruptFacts.
Import SetupMac.

(** C4 (as the code has it): when a [KeyboardInterrupt] comes out of
    one of the wizard's steps, the wizard prints two lines and exits with
    status 1, nothing is torn down, and the progress record names no block
    after the interrupted one.  An interrupt that arrives during the
    health probes of the last step is swallowed by their bare [except]:
    that check always returns.  The service manager's signal handler runs
    [compose down] once and then exits with status 0, unless running that
    command raised something other than [CalledProcessError], which then
    leaves the handler. *)
Theorem interrupt_handling keeps body o w o1 w1 m wm :
  (print_mac_banner;; load_progress;; setup_steps keeps body) o w
    = (o1, w1, Exc KeyboardInterrupt) ->
  (exit_with (run_mac_setup keeps body) o w
     = (o1, grown w1 [Out Plain interrupted_1; Out Plain interrupted_2],
        Exc (SystemExit 1))
   /\ exists j bs1 b bs2 c,
        journal o1 = journal o ++ j
        /\ blocks = bs1 ++ b :: bs2 /\ c ∈ calls b
        /\ last (ran j) = Some (callee c, false)
        /\ forall n, persisted o1 = Some n -> (n <= idx b)%Z)
  /\ (forall z w2, exists evs,
        check_service_health z w2 = (z, grown w2 evs, Val tt))
  /\ exists r1 evs res,
       StartMac.signal_handler m wm = (m, grown wm evs, res)
       /\ spawns evs = [(StartMac.down (StartMac.compose_file m), r1)]
       /\ ((forall e, r1 = Raises e -> e = CalledProcessError) ->
           res = Exc (SystemExit 0))
       /\ (forall e, r1 = Raises e -> e <> CalledProcessError -> res = Exc e).
Proof.
  intros H. split; [|split].
  - by apply SetupMacFacts.interrupted_run.
  - intros z w2. eexists. apply HealthFacts.setup_check_service_health_run.
  - apply StartMacFacts.signal_handler_run.
Qed.

Lemma interrupt_handling_witness :
  let o := Samples.fresh in
  let w := Samples.mac in
  let body := Samples.interrupted_at_search in
  let run := (print_mac_banner;; load_progress;; setup_steps false body) o w in
  (exit_with (run_mac_setup false body) o w
     = (run.1.1, grown run.1.2 [Out Plain interrupted_1; Out Plain interrupted_2],
        Exc (SystemExit 1))
   /\ exists j bs1 b bs2 c,
        journal run.1.1 = journal o ++ j
        /\ blocks = bs1 ++ b :: bs2 /\ c ∈ calls b
        /\ last (ran j) = Some (callee c, false)
        /\ forall n, persisted run.1.1 = Some n -> (n <= idx b)%Z)
  /\ (forall z w2, exists evs,
        check_service_health z w2 = (z, grown w2 evs, Val tt))
  /\ exists r1 evs res,
       StartMac.signal_handler Samples.manager Samples.mac
       = (Samples.manager, grown Samples.mac evs, res)
       /\ spawns evs
          = [(StartMac.down (StartMac.compose_file Samples.manager), r1)]
       /\ ((forall e, r1 = Raises e -> e = CalledProcessError) ->
           res = Exc (SystemExit 0))
       /\ (forall e, r1 = Raises e -> e <> CalledProcessError -> res = Exc e).
Proof.
  intros o w body run.
  apply (interrupt_handling false body o w run.1.1 run.1.2 Samples.manager
           Samples.mac).
  vm_compute. reflexivity.
Defined.

(** On a Mac where everything works, the manager's handler ends with exit
    status 0; the interrupted wizard ends with status 1 after spawning
    nothing but the banner's [sw_vers], with the interrupted step 7 on
    record. *)
Lemma interrupt_counterexample :
  let handler := StartMac.signal_handler Samples.manager Samples.mac in
  let setup := exit_with (run_mac_setup false Samples.interrupted_at_search)
                 Samples.fresh Samples.mac in
  handler.2 = Exc (SystemExit 0)
  /\ setup.2 = Exc (SystemExit 1)
  /\ map fst (spawns (log setup.1.2)) = [["sw_vers"; "-productVersion"]]
  /\ SetupMac.persisted setup.1.1 = Some 7%Z.
Proof. vm_compute. done. Qed.

End InterruptFacts.

(** ** Further facts: the service manager *)

Lemma json_loads_grown w evs : json_loads (grown w evs) = json_loads w.
Proof. done. Qed.

Module LogOnly.

Lemma log_only_ret {S A} (a : A) : log_only (S := S) (ret a).
Proof. intros s w. exists [], (Val a). by rewrite grown_nil. Qed.

Lemma log_only_raise {S A} e : log_only (S := S) (A := A) (raise e).
Proof. intros s w. exists [], (Exc e). by rewrite grown_nil. Qed.

Lemma log_only_bind {S A B} (m : Py S A) (f : A -> Py S B) :
  log_only m -> (forall a, log_only (f a)) -> log_only (bind m f).
Proof.
  intros Hm Hf s w. unfold bind.
  destruct (Hm s w) as (e1 & r1 & ->). destruct r1 as [a|e].
  - destruct (Hf a s (grown w e1)) as (e2 & r2 & ->).
    rewrite grown_grown. by eexists _, _.
  - by eexists _, _.
Qed.

Lemma log_only_try {S A} (m : Py S A) h :
  log_only m -> (forall e k, h e = Some k -> log_only k) ->
  log_only (try_except m h).
Proof.
  intros Hm Hh s w. unfold try_except.
  destruct (Hm s w) as (e1 & r1 & ->). destruct r1 as [a|e]; [by eexists _, _|].
  destruct (h e) as [k|] eqn:Hk; [|by eexists _, _].
  destruct (Hh e k Hk s (grown w e1)) as (e2 & r2 & ->).
  rewrite grown_grown. by eexists _, _.
Qed.

Lemma log_only_emit {S} ev : log_only (S := S) (emit ev).
Proof. intros s w. by eexists _, _. Qed.

Lemma log_only_spawn {S} cmd chk : log_only (S := S) (subprocess_run cmd chk).
Proof.
  intros s w. unfold subprocess_run.
  destruct (spawn_result w _ _) as [rc out|e]; [|by eexists _, _].
  destruct (chk && negb (rc =? 0)%Z); by eexists _, _.
Qed.

Lemma log_only_urlopen {S} u t : log_only (S := S) (urlopen u t).
Proof.
  intros s w. unfold urlopen.
  destruct (http_result_at w _ _) as [c|e]; [|by eexists _, _].
  destruct ((200 <=? c)%Z && (c <? 300)%Z); by eexists _, _.
Qed.

Lemma log_only_exists {S} p : log_only (S := S) (os_path_exists p).
Proof. intros s w. eexists [], _. by rewrite grown_nil. Qed.

Lemma log_only_get {S} : log_only (S := S) get_self.
Proof. intros s w. eexists [], _. by rewrite grown_nil. Qed.

Lemma log_only_ask {S} : log_only (S := S) ask.
Proof. intros s w. eexists [], _. by rewrite grown_nil. Qed.

Lemma log_only_for_each {S A} (f : A -> Py S unit) l :
  (forall a, log_only (f a)) -> log_only (StartMac.for_each f l).
Proof.
  intros Hf. induction l as [|a l IH]; cbn [StartMac.for_each].
  - apply log_only_ret.
  - apply log_only_bind; [apply Hf|intros _; apply IH].
Qed.

End LogOnly.

Ltac log_step :=
  first
    [ apply LogOnly.log_only_ret | apply LogOnly.log_only_raise
    | apply LogOnly.log_only_emit | apply LogOnly.log_only_spawn
    | apply LogOnly.log_only_urlopen | apply LogOnly.log_only_exists
    | apply LogOnly.log_only_get | apply LogOnly.log_only_ask
    | apply LogOnly.log_only_for_each; intros ?
    | apply LogOnly.log_only_bind; [|intros ?]
    | apply LogOnly.log_only_try; [|intros ? ? ?] ].

Ltac log_auto :=
  repeat (unfold mret, mbind, Py_ret, Py_bind, print, print_info, print_success,
            print_warning, print_error, sleep, sys_exit; cbn beta;
          first [ log_step
                | match goal with
                  | |- log_only (if ?b then _ else _) => destruct b
                  | |- log_only (match ?x with _ => _ end) => destruct x
                  | |- log_only (let _ := _ in _) => cbn zeta
                  | H : match ?e with _ => _ end = Some _ |- _ =>
                      destruct e; try discriminate H
                  | H : (if ?b then _ else _) = Some _ |- _ =>
                      destruct b; try discriminate H
                  | H : Some _ = Some _ |- _ => injection H as <-
                  end ]).

Module StartMacMore.
Import StartMac.

Lemma log_only_check_service_health : log_only check_service_health.
Proof. unfold check_service_health, check_one. log_auto. Qed.

Lemma log_only_stop_services : log_only stop_services.
Proof. unfold stop_services. log_auto. Qed.

Lemma log_only_start_services : log_only start_services.
Proof.
  unfold start_services. log_auto.
Qed.

Lemma log_only_get_service_status : log_only get_service_status.
Proof. unfold get_service_status. log_auto. Qed.

(** Apart from [check_prerequisites], which may switch the compose file,
    no command of the manager changes the manager object, and none writes
    a file: all they do is spawn, probe, sleep and print. *)
Theorem manager_commands_only_log :
  log_only stop_services /\ log_only start_services
  /\ log_only restart_services /\ log_only show_status
  /\ (forall service follow, log_only (show_logs service follow))
  /\ log_only open_browser /\ log_only show_system_info
  /\ log_only cleanup_docker /\ log_only signal_handler.
Proof.
  split_and!.
  - apply log_only_stop_services.
  - apply log_only_start_services.
  - unfold restart_services. log_auto.
  - unfold show_status. log_auto.
  - intros service follow. unfold show_logs. log_auto.
  - unfold open_browser. log_auto.
  - unfold show_system_info. log_auto.
  - unfold cleanup_docker. log_auto.
  - unfold signal_handler. log_auto.
Qed.

(** [stop_services] spawns [compose down] once and answers whether it
    exited with status 0; [CalledProcessError] is turned into [False], any
    other failure to run the command is raised to the caller. *)
Theorem stop_services_outcome m w :
  let r1 := spawn_result w (length (log w) + 1) (down (compose_file m)) in
  exists evs,
    stop_services m w
    = (m, grown w evs,
       match r1 with
       | Exited rc _ => Val (rc =? 0)%Z
       | Raises CalledProcessError => Val false
       | Raises e => Exc e
       end)
    /\ spawns evs = [(down (compose_file m), r1)]
    /\ (exited_ok r1 = false -> (forall e, r1 <> Raises e) ->
        printed_error evs = true).
Proof.
  intros r1. subst r1. unfold stop_services, down. py.
  destruct (spawn_result w _ _) as [rc out|e] eqn:H1; py.
  - destruct (rc =? 0)%Z eqn:Hrc; py; eexists; (split; [reflexivity|]);
      cbn; rewrite ?H1; cbn; rewrite ?Hrc; split; done.
  - destruct e; py; eexists; (split; [reflexivity|]); cbn; rewrite ?H1;
      (split; [done|]); intros _ Hne; by destruct (Hne _ eq_refl).
Qed.

(** [detect_apple_silicon] never raises: whatever happens to [uname -m],
    it answers, and the answer is [True] exactly when the command ran and
    printed [arm64] (surrounded by white space at most), whatever its exit
    status. *)
Theorem detect_apple_silicon_total {S} (s : S) w :
  let r1 := spawn_result w (length (log w)) ["uname"; "-m"] in
  exists b,
    detect_apple_silicon s w = (s, grown w [Spawn ["uname"; "-m"] r1], Val b)
    /\ (b = true <-> exists rc out, r1 = Exited rc out /\ strip out = "arm64").
Proof.
  intros r1. subst r1. unfold detect_apple_silicon. py.
  destruct (spawn_result w _ _) as [rc out|e]; py.
  - eexists. split; [reflexivity|]. rewrite String.eqb_eq. split.
    + intros H. by exists rc, out.
    + by intros (rc' & out' & [= _ <-] & H).
  - exists false. split; [done|]. split; [done|]. by intros (? & ? & ? & _).
Qed.

(** [get_service_status] never raises [CalledProcessError] or
    [JSONDecodeError]: it answers the empty list when [compose ps] fails,
    when it prints nothing but white space, and when what it prints is not
    JSON; otherwise it answers the parsed list. *)
Theorem service_status_falls_back_to_empty m w :
  let cmd := compose (compose_file m) ["ps"; "--format"; "json"] in
  let r1 := spawn_result w (length (log w)) cmd in
  exists res,
    get_service_status m w = (m, grown w [Spawn cmd r1], res)
    /\ res <> Exc CalledProcessError /\ res <> Exc JSONDecodeError
    /\ (forall rc out, r1 = Exited rc out -> rc <> 0%Z -> res = Val [])
    /\ (r1 = Raises CalledProcessError -> res = Val [])
    /\ (forall out, r1 = Exited 0 out ->
        res = Val (if String.eqb (strip out) EmptyString then []
                   else default [] (json_loads w out))).
Proof.
  intros cmd r1. subst cmd r1. unfold get_service_status. py.
  destruct (spawn_result w _ _) as [rc out|e]; py.
  - destruct (Z.eqb_spec rc 0) as [->|Hrc]; py.
    + destruct (strip out) eqn:Hs; py.
      * eexists. split; [reflexivity|]. split_and!; try done.
        intros out' [= <-]. by rewrite Hs.
      * rewrite json_loads_grown. destruct (json_loads w out) eqn:Hj; py;
          (eexists; split; [reflexivity|]; split_and!; try done;
           first [ by intros rc out' [= <- _] ?
                 | intros out' [= <-]; by rewrite Hs, Hj ]).
    + eexists. split; [reflexivity|]. split_and!; try done.
      by intros out' [= ? _].
  - destruct e; py; (eexists; split; [reflexivity|]; split_and!; done).
Qed.

Lemma probe_exn_is_Exception w :
  (forall t u e, http_result_at w t u = Fails e -> is_Exception e = true) ->
  forall t u e, probe_exn (http_result_at w t u) = Some e -> is_Exception e = true.
Proof.
  intros Hw t u e. unfold probe_exn.
  destruct (http_result_at w t u) as [c|e'] eqn:Hr.
  - destruct ((200 <=? c)%Z && (c <? 300)%Z); [done|]. by intros [= <-].
  - intros [= <-]. by eapply Hw.
Qed.

Lemma check_service_health_returns m w :
  (forall t u e, http_result_at w t u = Fails e -> is_Exception e = true) ->
  exists evs,
    check_service_health m w = (m, grown w evs, Val tt)
    /\ spawns evs = [] /\ sleeps evs = []
    /\ map fst (probes evs) = map snd services.
Proof.
  intros Hw. pose proof (probe_exn_is_Exception w Hw) as He.
  unfold check_service_health, services, for_each. py.
  StartMacFacts.probe_case; [StartMacFacts.probe_case| |StartMacFacts.probe_case].
  all: try match goal with
           | H : probe_exn _ = Some ?e, H' : is_Exception ?e = false |- _ =>
               rewrite (He _ _ _ H) in H'; discriminate H'
           end.
  all: eexists; (split; [reflexivity|done]).
Qed.

(** [start_services] answers [True] as soon as [compose pull] and
    [compose up -d] exited with status 0: it then sleeps 10 seconds and
    probes the two services once, and what the probes find does not change
    the answer. *)
Theorem start_succeeds_whatever_the_health m w :
  (forall t u e, http_result_at w t u = Fails e -> is_Exception e = true) ->
  (forall t, exited_ok (spawn_result w t (pull (compose_file m))) = true) ->
  (forall t, exited_ok (spawn_result w t (up (compose_file m))) = true) ->
  exists evs,
    start_services m w = (m, grown w evs, Val true)
    /\ map fst (spawns evs) = [pull (compose_file m); up (compose_file m)]
    /\ sleeps evs = [10%Z]
    /\ map fst (probes evs) = map snd services.
Proof.
  intros Hw Hpull Hup. unfold start_services. py.
  StartMacFacts.case_spawn H1;
    match type of H1 with spawn_result _ ?t _ = _ =>
      pose proof (Hpull t) as Hp end;
    unfold pull, compose in Hp; cbn [app] in Hp; rewrite H1 in Hp;
    [|done]. cbn in Hp. apply Z.eqb_eq in Hp. subst rc. py.
  StartMacFacts.case_spawn H2;
    match type of H2 with spawn_result _ ?t _ = _ =>
      pose proof (Hup t) as Hp end;
    unfold up, compose in Hp; cbn [app] in Hp; rewrite H2 in Hp;
    [|done]. cbn in Hp. apply Z.eqb_eq in Hp. subst rc. py.
  match goal with |- context [check_service_health ?m ?w'] =>
    destruct (check_service_health_returns m w') as (evs & -> & Hs & Hz & Hpr)
  end; [done|]. py.
  eexists. split; [reflexivity|].
  unfold spawns, sleeps, probes in *. cbn. rewrite ?omap_app, ?Hs, ?Hz, ?Hpr.
  cbn. rewrite ?H1, ?H2. done.
Qed.

Lemma start_succeeds_whatever_the_health_witness :
  exists evs,
    start_services Samples.manager Samples.mac_services_down
    = (Samples.manager, grown Samples.mac_services_down evs, Val true)
    /\ map fst (spawns evs)
       = [pull (compose_file Samples.manager); up (compose_file Samples.manager)]
    /\ sleeps evs = [10%Z]
    /\ map fst (probes evs) = map snd services.
Proof.
  apply (start_succeeds_whatever_the_health Samples.manager
           Samples.mac_services_down).
  - intros t u e H. injection H as <-. reflexivity.
  - intros t. reflexivity.
  - intros t. reflexivity.
Defined.

Lemma wait_for_docker_S {S} n (s : S) w :
  wait_for_docker (Datatypes.S n) s w =
  let r1 := spawn_result w (length (log w)) docker_info_cmd in
  match r1 with
  | Exited rc out =>
      if (rc =? 0)%Z
      then (s, grown w [Spawn docker_info_cmd r1;
                        Out Success "Docker Desktop is now running"], Val true)
      else wait_for_docker n s
             (grown w [Spawn docker_info_cmd r1; Sleep 2; Out Plain "."])
  | Raises CalledProcessError =>
      wait_for_docker n s
        (grown w [Spawn docker_info_cmd r1; Sleep 2; Out Plain "."])
  | Raises e => (s, grown w [Spawn docker_info_cmd r1], Exc e)
  end.
Proof.
  cbn [wait_for_docker]. cbn zeta. unfold docker_info_cmd. pyg.
  destruct (spawn_result w _ _) as [rc out|e]; pyg.
  - destruct (rc =? 0)%Z; pyg; reflexivity.
  - destruct e; pyg; reflexivity.
Qed.

(** The wait for Docker Desktop is bounded: [docker info] is run at most
    [n] times (30 in [check_prerequisites]), with a sleep of 2 seconds
    after each failed attempt and none after the one that succeeds.  The
    wait answers [True] on the first attempt that exits with status 0 and
    [False] after [n] failed attempts. *)
Theorem wait_for_docker_bounded {S} n (s : S) : forall w,
  exists evs r,
    wait_for_docker n s w = (s, grown w evs, r)
    /\ (length (spawns evs) <= n)%nat
    /\ Forall (fun c => c.1 = docker_info_cmd) (spawns evs)
    /\ (r = Val false ->
        length (spawns evs) = n /\ sleeps evs = replicate n 2%Z
        /\ Forall (fun c => exited_ok c.2 = false) (spawns evs))
    /\ (r = Val true ->
        exists pre r1,
          spawns evs = pre ++ [(docker_info_cmd, r1)]
          /\ exited_ok r1 = true
          /\ Forall (fun c => exited_ok c.2 = false) pre
          /\ sleeps evs = replicate (length pre) 2%Z).
Proof.
  induction n as [|n IH]; intros w.
  - exists [], (Val false). rewrite grown_nil.
    split_and!; try done; by constructor.
  - rewrite wait_for_docker_S. cbn zeta.
    set (r1 := spawn_result w (length (log w)) docker_info_cmd).
    assert (Hfail : exited_ok r1 = false ->
      exists evs r,
        wait_for_docker n s
          (grown w [Spawn docker_info_cmd r1; Sleep 2; Out Plain "."])
        = (s, grown w evs, r)
        /\ (length (spawns evs) <= Datatypes.S n)%nat
        /\ Forall (fun c => c.1 = docker_info_cmd) (spawns evs)
        /\ (r = Val false ->
            length (spawns evs) = Datatypes.S n
            /\ sleeps evs = replicate (Datatypes.S n) 2%Z
            /\ Forall (fun c => exited_ok c.2 = false) (spawns evs))
        /\ (r = Val true ->
            exists pre r2,
              spawns evs = pre ++ [(docker_info_cmd, r2)]
              /\ exited_ok r2 = true
              /\ Forall (fun c => exited_ok c.2 = false) pre
              /\ sleeps evs = replicate (length pre) 2%Z)).
    { intros Hr1.
      destruct (IH (grown w [Spawn docker_info_cmd r1; Sleep 2; Out Plain "."]))
        as (evs & r & -> & Hlen & Hall & Hf & Ht).
      rewrite grown_grown. eexists _, r. split; [reflexivity|].
      unfold spawns, sleeps in *. cbn. split_and!.
      - lia.
      - by constructor.
      - intros Hr. destruct (Hf Hr) as (-> & -> & Hno).
        split_and!; [done|done|by constructor].
      - intros Hr. destruct (Ht Hr) as (pre & r2 & -> & Hok & Hno & ->).
        exists ((docker_info_cmd, r1) :: pre), r2.
        split_and!; [done|done|by constructor|done]. }
    destruct r1 as [rc out|e] eqn:Hr1.
    + destruct (Z.eqb_spec rc 0) as [->|Hrc].
      * eexists _, (Val true). split; [reflexivity|].
        unfold spawns, sleeps. cbn. split_and!; [lia|by repeat constructor|done|].
        intros _. exists [], (Exited 0 out). by split_and!.
      * apply Hfail. cbn. by apply Z.eqb_neq.
    + destruct e; try (by apply Hfail);
        (eexists _, (Exc _); split; [reflexivity|];
         unfold spawns, sleeps; cbn;
         split_and!; [lia|by repeat constructor|done|done]).
Qed.

#[local] Arguments wait_for_docker : simpl never.

Lemma log_only_wait_for_docker {S} n : log_only (S := S) (wait_for_docker n).
Proof.
  intros s w. destruct (wait_for_docker_bounded n s w) as (evs & r & -> & _).
  by eexists _, _.
Qed.

Lemma log_only_check_docker : log_only check_docker.
Proof.
  unfold check_docker.
  repeat first [ apply log_only_wait_for_docker | progress log_auto ].
Qed.

Lemma check_docker_early m w m' w' b :
  check_docker m w = (m', w', Val (Some b)) -> b = false.
Proof.
  unfold check_docker, docker_info_cmd. py.
  repeat first
    [ discriminate
    | by intros [= _ _ <-]
    | match goal with
      | |- context [wait_for_docker 30 ?s ?w0] =>
          let evs := fresh "evs" in let r := fresh "r" in
          destruct (log_only_wait_for_docker 30 s w0) as (evs & r & ->);
          destruct r as [[]|[]]; py
      | |- context [match spawn_result ?w0 ?t ?c with _ => _ end] =>
          destruct (spawn_result w0 t c) as [?rc ?out|[]]; py
      | |- context [if (?rc =? 0)%Z then _ else _] =>
          destruct (rc =? 0)%Z; py
      | |- context [negb (?rc =? 0)%Z] =>
          destruct (rc =? 0)%Z; py
      end ].
Qed.

(** [check_prerequisites] answers [True] only when both env files exist;
    it writes no file, and the compose file it leaves in the manager is the
    one it had when that file exists and [docker-compose.yaml] otherwise,
    whether or not that one exists. *)
Theorem prerequisites_met m w m' w' :
  check_prerequisites m w = (m', w', Val true) ->
  is_Some (files w !! "backend/.env")
  /\ is_Some (files w !! "frontend/.env.local")
  /\ files w' = files w
  /\ compose_file m'
     = (if bool_decide (is_Some (files w !! compose_file m))
        then compose_file m else "docker-compose.yaml")
  /\ is_apple_silicon m' = is_apple_silicon m
  /\ docker_platform m' = docker_platform m.
Proof.
  unfold check_prerequisites.
  unfold mbind at 1, Py_bind at 1, bind at 1. unfold print_info at 1, emit at 1.
  unfold mbind at 1, Py_bind at 1, bind at 1.
  destruct (log_only_check_docker m (grown w [Out Info "Checking prerequisites..."]))
    as (evs & r & Hcd).
  rewrite Hcd, grown_grown.
  destruct r as [[b|]|e]; [|py|discriminate].
  { cbn. intros [= <- <- ->]. by apply check_docker_early in Hcd. }
  destruct (bool_decide (is_Some (files w !! compose_file m))) eqn:Hc; py;
    destruct (bool_decide (is_Some (files w !! "backend/.env"))) eqn:Hb; py;
    try discriminate;
    destruct (bool_decide (is_Some (files w !! "frontend/.env.local"))) eqn:Hf;
    py; try discriminate;
    intros [= <- <-]; apply bool_decide_eq_true in Hb, Hf; done.
Qed.

Lemma prerequisites_met_witness :
  let run := check_prerequisites Samples.manager Samples.mac in
  is_Some (files Samples.mac !! "backend/.env")
  /\ is_Some (files Samples.mac !! "frontend/.env.local")
  /\ files run.1.2 = files Samples.mac
  /\ compose_file run.1.1
     = (if bool_decide (is_Some (files Samples.mac
                                   !! compose_file Samples.manager))
        then compose_file Samples.manager else "docker-compose.yaml")
  /\ is_apple_silicon run.1.1 = is_apple_silicon Samples.manager
  /\ docker_platform run.1.1 = docker_platform Samples.manager.
Proof.
  intros run.
  apply (prerequisites_met Samples.manager Samples.mac run.1.1 run.1.2).
  vm_compute. reflexivity.
Defined.

(** [show_logs] spawns [docker compose logs] once, with [-f] when
    following and with the service name when one is given and is not
    empty, and [CalledProcessError] never leaves it.  When not following,
    exit status 0 prints the captured output and any other status prints
    an error; when following, the exit status is not looked at. *)
Theorem show_logs_outcome service (follow : bool) m w :
  let cmd := compose (compose_file m) ["logs"]
             ++ (if follow then ["-f"] else [])
             ++ match truthy service with Some s => [s] | None => [] end in
  let r1 := spawn_result w (length (log w) + (if follow then 1 else 0)) cmd in
  exists evs res,
    show_logs service follow m w = (m, grown w evs, res)
    /\ spawns evs = [(cmd, r1)]
    /\ res <> Exc CalledProcessError
    /\ forall rc out, r1 = Exited rc out ->
         res = Val tt
         /\ printed_error evs = negb follow && negb (rc =? 0)%Z
         /\ (follow = false -> rc = 0%Z -> last evs = Some (Out Plain out)).
Proof.
  intros cmd r1. subst cmd r1. unfold show_logs. py. destruct follow; py.
  - destruct (spawn_result w _ _) as [rc out|e] eqn:H1; py;
      [|destruct e; py];
      (eexists _, _; split; [reflexivity|]; cbn; rewrite ?H1;
       split_and!; try done).
  - rewrite Nat.add_0_r.
    destruct (spawn_result w _ _) as [rc out|e] eqn:H1; py;
      [destruct (Z.eqb_spec rc 0) as [->|Hrc]; py|destruct e; py];
      (eexists _, _; split; [reflexivity|]; cbn; rewrite ?H1;
       split_and!; try done).
    + intros rc' out' [= <- <-]. done.
    + intros rc' out' [= <- <-]. split_and!; [done| |done].
      cbn. by destruct (Z.eqb_spec rc 0).
Qed.

(** Neither script does anything on another system: whatever the
    command, [help] included, the manager prints two lines and exits with
    status 1 without spawning anything, and so does the wizard. *)
Theorem scripts_need_macos w keeps body o argv :
  platform_system w <> "Darwin" ->
  run_script (main argv) tt w
  = (grown w [Out Error "This script is designed for macOS only.";
              Out Info "For other platforms, use: python start.py"], 1%Z)
  /\ SetupMac.main keeps body o w
     = (o, grown w [Out Error "This script is designed for macOS only.";
                    Out Info "For other platforms, use: python setup.py"],
        Exc (SystemExit 1)).
Proof.
  intros H. apply String.eqb_neq in H.
  unfold run_script, main, SetupMac.main. py. rewrite H. py. done.
Qed.

Lemma scripts_need_macos_witness :
  run_script (main ["start_mac.py"; "help"]) tt Samples.linux
  = (grown Samples.linux
       [Out Error "This script is designed for macOS only.";
        Out Info "For other platforms, use: python start.py"], 1%Z)
  /\ SetupMac.main false Samples.all_fine Samples.fresh Samples.linux
     = (Samples.fresh,
        grown Samples.linux
          [Out Error "This script is designed for macOS only.";
           Out Info "For other platforms, use: python setup.py"],
        Exc (SystemExit 1)).
Proof.
  apply (scripts_need_macos Samples.linux false Samples.all_fine Samples.fresh
           ["start_mac.py"; "help"]).
  intros H. discriminate H.
Defined.

End StartMacMore.

(** ** Further facts: the setup wizard *)

Module SetupMacMore.
Import SetupMac.

Lemma check_each_cons {S} d rest missing (s : S) w :
  check_each (d :: rest) missing s w =
  let r1 := spawn_result w (length (log w)) d.2 in
  match r1 with
  | Exited rc out =>
      if (rc =? 0)%Z
      then check_each rest missing s
             (grown w [Spawn d.2 r1; Out Success (d.1 +:+ " is installed")])
      else check_each rest (missing ++ [d.1]) s
             (grown w [Spawn d.2 r1; Out Error (d.1 +:+ " is not installed")])
  | Raises CalledProcessError | Raises FileNotFoundError =>
      check_each rest (missing ++ [d.1]) s
        (grown w [Spawn d.2 r1; Out Error (d.1 +:+ " is not installed")])
  | Raises e => (s, grown w [Spawn d.2 r1], Exc e)
  end.
Proof.
  cbn [check_each]. cbn zeta. pyg.
  destruct (spawn_result w _ _) as [rc out|e]; pyg.
  - destruct (rc =? 0)%Z; pyg; reflexivity.
  - destruct e; pyg; reflexivity.
Qed.

Lemma check_each_spec {S} deps (s : S) : forall missing w,
  exists evs r,
    check_each deps missing s w = (s, grown w evs, r)
    /\ r <> Exc CalledProcessError /\ r <> Exc FileNotFoundError
    /\ forall l, r = Val l ->
         map fst (spawns evs) = map snd deps
         /\ l = missing ++ missing_of deps (spawns evs).
Proof.
  induction deps as [|d rest IH]; intros missing w.
  - exists [], (Val missing). rewrite grown_nil. split_and!; try done.
    intros l [= <-]. by rewrite app_nil_r.
  - rewrite check_each_cons. cbn zeta.
    set (r1 := spawn_result w (length (log w)) d.2).
    assert (Hok : exited_ok r1 = true -> forall msg,
      exists evs r,
        check_each rest missing s (grown w [Spawn d.2 r1; Out Success msg])
        = (s, grown w evs, r)
        /\ r <> Exc CalledProcessError /\ r <> Exc FileNotFoundError
        /\ forall l, r = Val l ->
             map fst (spawns evs) = map snd (d :: rest)
             /\ l = missing ++ missing_of (d :: rest) (spawns evs)).
    { intros Hr1 msg.
      destruct (IH missing (grown w [Spawn d.2 r1; Out Success msg]))
        as (evs & r & -> & H1 & H2 & H3).
      rewrite grown_grown. eexists _, r. split; [reflexivity|].
      split_and!; try done. intros l Hl. destruct (H3 l Hl) as [Hs ->].
      unfold spawns, missing_of in *. cbn. rewrite Hs, Hr1. done. }
    assert (Hno : exited_ok r1 = false -> forall msg,
      exists evs r,
        check_each rest (missing ++ [d.1]) s
          (grown w [Spawn d.2 r1; Out Error msg])
        = (s, grown w evs, r)
        /\ r <> Exc CalledProcessError /\ r <> Exc FileNotFoundError
        /\ forall l, r = Val l ->
             map fst (spawns evs) = map snd (d :: rest)
             /\ l = missing ++ missing_of (d :: rest) (spawns evs)).
    { intros Hr1 msg.
      destruct (IH (missing ++ [d.1]) (grown w [Spawn d.2 r1; Out Error msg]))
        as (evs & r & -> & H1 & H2 & H3).
      rewrite grown_grown. eexists _, r. split; [reflexivity|].
      split_and!; try done. intros l Hl. destruct (H3 l Hl) as [Hs ->].
      unfold spawns, missing_of in *. cbn. rewrite Hs, Hr1.
      by rewrite <- app_assoc. }
    destruct r1 as [rc out|e] eqn:Hr1.
    + destruct (rc =? 0)%Z eqn:Hrc; [by apply Hok|by apply Hno].
    + destruct e; try (by apply Hno);
        (eexists _, (Exc _); split; [reflexivity|]; split_and!; done).
Qed.

(** [check_dependencies] runs the seven version commands in the order of
    its table and answers the dependencies whose command did not exit with
    status 0, in that order; a binary that is not on the system counts as
    missing, and neither [CalledProcessError] nor [FileNotFoundError]
    leaves the function. *)
Theorem missing_dependencies_listed {S} (s : S) w :
  exists evs r,
    check_dependencies s w = (s, grown w evs, r)
    /\ r <> Exc CalledProcessError /\ r <> Exc FileNotFoundError
    /\ forall missing, r = Val missing ->
         map fst (spawns evs) = map snd dependencies
         /\ missing = missing_of dependencies (spawns evs)
         /\ missing ⊆ map fst dependencies.
Proof.
  destruct (check_each_spec dependencies s [] w) as (evs & r & H & H1 & H2 & H3).
  exists evs, r. split_and!; try done.
  intros missing Hm. destruct (H3 missing Hm) as [Hs ->]. split_and!; try done.
  intros x. unfold missing_of. cbn [app]. rewrite list_elem_of_omap.
  intros ([[dep cmd] run] & Hin & Hx). apply elem_of_zip_l in Hin.
  cbn in Hx. destruct (exited_ok run.2); [done|]. injection Hx as <-.
  apply list_elem_of_fmap. by exists (dep, cmd).
Qed.

#[local] Arguments check_service_health : simpl never.

(** [start_mac_services] with the manual method spawns and probes
    nothing and answers [True].  With the Docker method it spawns
    [compose up -d] once and answers whether it exited with status 0; the
    two probes that follow a successful start cannot change the answer. *)
Theorem start_mac_services_outcome z w :
  let method := default "docker" (setup_method (env_vars z)) in
  let r1 := spawn_result w (length (log w) + 2) up_cmd in
  exists evs,
    start_mac_services z w
    = (z, grown w evs,
       if String.eqb method "docker" then
         match r1 with
         | Exited rc _ => Val (rc =? 0)%Z
         | Raises CalledProcessError => Val false
         | Raises e => Exc e
         end
       else Val true)
    /\ spawns evs = (if String.eqb method "docker" then [(up_cmd, r1)] else [])
    /\ (probes evs <> [] ->
        String.eqb method "docker" = true /\ exited_ok r1 = true
        /\ sleeps evs = [10%Z] /\ length (probes evs) = 2%nat).
Proof.
  intros method r1. subst method r1.
  replace (length (log w) + 2)%nat with (length (log w) + 1 + 1)%nat by lia.
  unfold start_mac_services, print_step, up_cmd. py.
  destruct (String.eqb _ "docker") eqn:Hm; py.
  - destruct (spawn_result w _ _) as [rc out|e] eqn:H1; py.
    + destruct (rc =? 0)%Z eqn:Hrc; py.
      * rewrite HealthFacts.setup_check_service_health_run. cbn zeta. py.
        eexists. split; [reflexivity|]. unfold verdict.
        do 2 destruct (answered_2xx _); cbn; by rewrite ?Hrc.
      * eexists. split; [reflexivity|]. cbn. by rewrite ?H1.
    + destruct e; py; (eexists; split; [reflexivity|]; cbn; by rewrite ?H1).
  - eexists. split; [reflexivity|]. done.
Qed.

(** The insertion-ordered dict. *)
Lemma dict_get_set_eq k v d : dict_get k (dict_set k v d) = Some v.
Proof.
  induction d as [|[k' v'] d IH]; cbn.
  - by rewrite String.eqb_refl.
  - destruct (String.eqb k' k) eqn:E; cbn.
    + by rewrite String.eqb_refl.
    + by rewrite E.
Qed.

Lemma dict_get_set_ne k k' v d :
  k <> k' -> dict_get k (dict_set k' v d) = dict_get k d.
Proof.
  intros Hne. induction d as [|[k0 v0] d IH]; cbn.
  - apply String.eqb_neq in Hne. rewrite String.eqb_sym. by rewrite Hne.
  - destruct (String.eqb k0 k') eqn:E; cbn.
    + apply String.eqb_eq in E. subst k0.
      assert (String.eqb k' k = false) as -> by (apply String.eqb_neq; congruence).
      done.
    + by rewrite IH.
Qed.

Lemma keys_dict_set k v d x :
  x ∈ map fst (dict_set k v d) <-> x = k \/ x ∈ map fst d.
Proof.
  induction d as [|[k' v'] d IH]; cbn.
  - rewrite elem_of_cons, elem_of_nil. tauto.
  - destruct (String.eqb_spec k' k) as [->|Hne]; cbn.
    + rewrite !elem_of_cons. tauto.
    + rewrite !elem_of_cons, IH. tauto.
Qed.

Lemma NoDup_dict_set k v d :
  NoDup (map fst d) -> NoDup (map fst (dict_set k v d)).
Proof.
  induction d as [|[k' v'] d IH]; cbn.
  - intros _. apply NoDup_singleton.
  - rewrite NoDup_cons. intros [Hk' Hd].
    destruct (String.eqb_spec k' k) as [->|Hne]; cbn.
    + by apply NoDup_cons.
    + apply NoDup_cons. split; [|by apply IH].
      rewrite keys_dict_set. intros [?|?]; done.
Qed.

Lemma dict_get_update_notin k d src :
  k ∉ map fst src -> dict_get k (dict_update d src) = dict_get k d.
Proof.
  unfold dict_update. revert d.
  induction src as [|[k' v'] src IH]; intros d Hk; cbn; [done|].
  cbn in Hk. rewrite not_elem_of_cons in Hk. destruct Hk as [Hne Hk].
  rewrite IH by done. by apply dict_get_set_ne.
Qed.

Lemma keys_dict_update d src x :
  x ∈ map fst (dict_update d src) <-> x ∈ map fst d \/ x ∈ map fst src.
Proof.
  unfold dict_update. revert d.
  induction src as [|[k' v'] src IH]; intros d; cbn.
  - rewrite elem_of_nil. tauto.
  - rewrite IH, keys_dict_set, elem_of_cons. tauto.
Qed.

Lemma NoDup_dict_update d src :
  NoDup (map fst d) -> NoDup (map fst (dict_update d src)).
Proof.
  unfold dict_update. revert d.
  induction src as [|[k' v'] src IH]; intros d Hd; cbn; [done|].
  apply IH. by apply NoDup_dict_set.
Qed.

#[local] Arguments dict_set : simpl never.
#[local] Arguments dict_update : simpl never.
#[local] Arguments dict_get : simpl never.

(** In [backend/.env] every key occurs once; every key of a collected
    category is there; and the platform keys, which the dict display sets
    last, have the wizard's values whatever the collected categories
    hold under the same names. *)
Theorem backend_env_platform_keys z method
    supabase llm search rapidapi smithery qstash mcp daytona :
  let d := backend_env z method supabase llm search rapidapi smithery qstash
             mcp daytona in
  NoDup (map fst d)
  /\ (forall c k,
        c ∈ [supabase; llm; search; rapidapi; smithery; qstash; mcp; daytona] ->
        k ∈ map fst c -> k ∈ map fst d)
  /\ dict_get "NEXT_PUBLIC_URL" d = Some (Some "http://localhost:3000")
  /\ dict_get "DOCKER_PLATFORM" d = Some (Some (docker_platform z))
  /\ dict_get "HOMEBREW_PREFIX" d = Some (Some (homebrew_prefix z))
  /\ dict_get "MAC_ARCHITECTURE" d
     = Some (Some (mac_architecture (is_apple_silicon z))).
Proof.
  intros d. subst d. unfold backend_env. cbn zeta.
  split; [|split].
  - destruct (is_apple_silicon z);
      repeat first [apply NoDup_dict_set | apply NoDup_dict_update];
      cbn; apply NoDup_nil_2.
  - intros c k Hc Hk.
    assert (Hin : forall (d : category),
      k ∈ map fst d ->
      k ∈ map fst (if is_apple_silicon z
                   then dict_set "DOCKER_DEFAULT_PLATFORM" (Some "linux/arm64")
                          (dict_set "DOCKER_BUILDKIT" (Some "1") d)
                   else d)).
    { intros d Hd. destruct (is_apple_silicon z); [|done].
      rewrite !keys_dict_set. tauto. }
    apply Hin. repeat first [rewrite keys_dict_set | rewrite keys_dict_update].
    rewrite !elem_of_cons, elem_of_nil in Hc.
    destruct Hc as [->|[->|[->|[->|[->|[->|[->|[->|[]]]]]]]]]; tauto.
  - destruct (is_apple_silicon z);
      rewrite ?(dict_get_set_ne _ "DOCKER_DEFAULT_PLATFORM"),
        ?(dict_get_set_ne _ "DOCKER_BUILDKIT") by done;
      (split_and!;
       repeat first [ apply dict_get_set_eq
                    | rewrite dict_get_set_ne by done ]).
Qed.

#[local] Arguments backend_env_content : simpl never.
#[local] Arguments frontend_env_content : simpl never.
#[local] Arguments backend_env : simpl never.
#[local] Arguments frontend_env : simpl never.
#[local] Arguments write_text : simpl never.

Ltac key_error_done H :=
  injection H as <- <- <-;
  rewrite ?EnvFileFacts.news_written, ?EnvFileFacts.news_grown,
    ?EnvFileFacts.files_with_files, ?files_grown;
  split;
  [ intros [?|?]; try discriminate; eexists; split; reflexivity
  | intros ? ?; try done ].

(** [configure_mac_env_files] is not all or nothing.  When a whole
    category or the setup method is missing, the [KeyError] comes before
    any file is touched; when the Supabase answers lack the URL or the
    anon key, it comes after [backend/.env] has been overwritten and
    before [frontend/.env.local] is. *)
Theorem env_files_not_all_or_nothing z w z' w' k :
  configure_mac_env_files z w = (z', w', Exc (KeyError k)) ->
  ((k = "SUPABASE_URL" \/ k = "SUPABASE_ANON_KEY") ->
     exists tb,
       fs_ops (news w w') = [Truncate backend_path; Append backend_path tb]
       /\ files w' = <[backend_path := tb]> (files w))
  /\ (k <> "SUPABASE_URL" -> k <> "SUPABASE_ANON_KEY" ->
      fs_ops (news w w') = [] /\ files w' = files w).
Proof.
  unfold configure_mac_env_files, print_step.
  unfold mbind, Py_bind, bind, get_self, mret, Py_ret, ret, raise, print_success, emit.
  cbn beta iota. intros H.
  destruct (setup_method (env_vars z)) as [method|] eqn:Hm;
    [|by key_error_done H].
  cbn beta iota in H.
  repeat (rewrite EnvFileFacts.category_of_run in H;
          match type of H with
          | context [categories (env_vars z) !! ?k] =>
              destruct (categories (env_vars z) !! k) eqn:?;
                [|by key_error_done H]
          end; cbn beta iota in H).
  rewrite EnvFileFacts.write_text_run in H.
  destruct (writable _ backend_path); [|discriminate H].
  cbn beta iota in H. rewrite !EnvFileFacts.item_run in H.
  rewrite ?EnvFileFacts.grown_with_files, ?grown_grown in H.
  destruct (dict_get "SUPABASE_URL" _) as [url|] eqn:Hurl;
    [|by key_error_done H].
  cbn beta iota in H. rewrite !EnvFileFacts.item_run in H.
  destruct (dict_get "SUPABASE_ANON_KEY" _) as [anon|] eqn:Hanon;
    [|by key_error_done H].
  cbn beta iota in H. rewrite EnvFileFacts.write_text_run in H.
  destruct (writable _ frontend_path); discriminate H.
Qed.

Lemma env_files_not_all_or_nothing_witness :
  let run := configure_mac_env_files Samples.wizard_without_url Samples.mac in
  ((("SUPABASE_URL" : string) = "SUPABASE_URL"
    \/ ("SUPABASE_URL" : string) = "SUPABASE_ANON_KEY") ->
     exists tb,
       fs_ops (news Samples.mac run.1.2)
       = [Truncate backend_path; Append backend_path tb]
       /\ files run.1.2 = <[backend_path := tb]> (files Samples.mac))
  /\ (("SUPABASE_URL" : string) <> "SUPABASE_URL" ->
      ("SUPABASE_URL" : string) <> "SUPABASE_ANON_KEY" ->
      fs_ops (news Samples.mac run.1.2) = []
      /\ files run.1.2 = files Samples.mac).
Proof.
  intros run.
  apply (env_files_not_all_or_nothing Samples.wizard_without_url Samples.mac
           run.1.1 run.1.2 "SUPABASE_URL").
  vm_compute. reflexivity.
Defined.

End SetupMacMore.

(** ** Further facts: the deployment tests *)

Module TestMacMore.
Import TestMac.

Lemma results_get_set_eq k v d : results_get k (results_set k v d) = Some v.
Proof.
  induction d as [|[k' v'] d IH]; cbn.
  - by rewrite String.eqb_refl.
  - destruct (String.eqb k' k) eqn:E; cbn.
    + by rewrite String.eqb_refl.
    + by rewrite E.
Qed.

Lemma results_get_set_is_Some k k' v d :
  is_Some (results_get k d) -> is_Some (results_get k (results_set k' v d)).
Proof.
  induction d as [|[k0 v0] d IH]; cbn; [by intros [? [=]]|].
  destruct (String.eqb_spec k0 k) as [->|Hne].
  - intros _. destruct (String.eqb_spec k k') as [->|Hne']; cbn.
    + by rewrite String.eqb_refl.
    + by rewrite String.eqb_refl.
  - intros H. destruct (String.eqb_spec k0 k') as [->|Hne']; cbn.
    + destruct (String.eqb_spec k' k); [done|]. done.
    + destruct (String.eqb_spec k0 k); [done|]. by apply IH.
Qed.

(** What one [run_test] does to the tester. *)
Lemma run_test_spec name f t w t' w' r :
  run_test name f t w = (t', w', r) ->
  is_apple_silicon t' = is_apple_silicon t
  /\ total_tests t' = (total_tests t + 1)%Z
  /\ (forall e, r = Exc e ->
      is_Exception e = false
      /\ passed_tests t' = passed_tests t /\ failed_tests t' = failed_tests t
      /\ test_results t' = test_results t)
  /\ (forall b, r = Val b ->
      passed_tests t' = (passed_tests t + (if b then 1 else 0))%Z
      /\ failed_tests t' = (failed_tests t + (if b then 0 else 1))%Z
      /\ exists v, test_results t' = results_set name v (test_results t)
                   /\ (v = "PASSED" <-> b = true)).
Proof.
  unfold run_test, count_test, print_test_header, call_test, record_pass,
    record_fail. py.
  destruct (f (is_apple_silicon t) tt _) as [[u w1] [b|e]]; py.
  - destruct b; py; intros [= <- <- <-]; cbn; split_and!; try done.
    + intros b [= <-]. split_and!; [done|lia|]. by eexists.
    + intros b [= <-]. split_and!; [lia|done|]. by eexists.
  - destruct (is_Exception e) eqn:He; py; intros [= <- <- <-]; cbn;
      split_and!; try done.
    + intros b [= <-]. split_and!; [lia|done|]. by eexists.
    + by intros e' [= <-].
Qed.

(** The counters of the tester add up.  After the loop of
    [run_all_tests] has gone through its table, [total_tests] has grown by
    the number of tests, each test has been counted as passed or as failed
    and never as both, and every test has an entry in [test_results]; so
    no test failed exactly when all of them passed.  A test that raises an
    [Exception] does not stop the run: it is counted as failed, its entry
    says [FAILED] with the exception, and [run_test] answers [False]. *)
Theorem run_tests_counts tests : forall t w t' w',
  run_tests tests t w = (t', w', Val tt) ->
  let n := Z.of_nat (length tests) in
  (is_apple_silicon t' = is_apple_silicon t
   /\ total_tests t' = (total_tests t + n)%Z
   /\ (passed_tests t' + failed_tests t'
       = passed_tests t + failed_tests t + n)%Z
   /\ (passed_tests t <= passed_tests t')%Z
   /\ (failed_tests t <= failed_tests t')%Z
   /\ (failed_tests t' = failed_tests t
       <-> passed_tests t' = (passed_tests t + n)%Z)
   /\ (forall name, name ∈ map fst tests ->
       is_Some (results_get name (test_results t')))
   /\ (forall name, is_Some (results_get name (test_results t)) ->
       is_Some (results_get name (test_results t'))))
  /\ forall name f t0 w0 u w1 e,
       f (is_apple_silicon t0) tt
         (grown w0 [Out Plain (nl +:+ name); Out Plain (str_repeat "=" 50)])
       = (u, w1, Exc e) ->
       is_Exception e = true ->
       exists t1,
         run_test name f t0 w0
         = (t1, grown w1 [Out Error (name +:+ " FAILED with exception: "
                                     +:+ str_exn e)], Val false)
         /\ total_tests t1 = (total_tests t0 + 1)%Z
         /\ failed_tests t1 = (failed_tests t0 + 1)%Z
         /\ passed_tests t1 = passed_tests t0
         /\ results_get name (test_results t1)
            = Some ("FAILED: " +:+ str_exn e).
Proof.
  intros t w t' w' H n. split.
  - subst n. revert t w t' w' H.
    induction tests as [|[name f] tests IH]; intros t w t' w'.
    + cbn. intros [= <- <-]. split_and!; try done; try lia.
      intros name. cbn. by rewrite elem_of_nil.
    + cbn [run_tests]. unfold mbind, Py_bind, bind. cbn [fst snd].
      destruct (run_test name f t w) as [[t1 w1] [b|e]] eqn:H1; [|discriminate].
      intros H2. apply run_test_spec in H1 as (Ha & Ht & _ & Hb).
      destruct (Hb b eq_refl) as (Hp & Hf & v & Hres & _).
      apply IH in H2.
      destruct H2 as (Ha2 & Ht2 & Hpf2 & Hp2 & Hf2 & _ & Hin2 & Hkeep2).
      rewrite length_cons, Nat2Z.inj_succ.
      assert (Hkeep : forall k, is_Some (results_get k (test_results t)) ->
                                is_Some (results_get k (test_results t'))).
      { intros k Hk. apply Hkeep2. rewrite Hres.
        by apply results_get_set_is_Some. }
      split_and!; try (destruct b; lia); try done.
      * congruence.
      * intros k. cbn. rewrite elem_of_cons. intros [->|Hk]; [|by apply Hin2].
        apply Hkeep2. rewrite Hres, results_get_set_eq. by eexists.
  - intros name f t0 w0 u w1 e Hf He.
    unfold run_test, count_test, print_test_header, call_test, record_pass,
      record_fail. py. cbn in Hf. rewrite Hf. py. rewrite He. py.
    eexists. split; [reflexivity|]. cbn.
    split_and!; try done. apply results_get_set_eq.
Qed.

Lemma run_tests_counts_witness :
  let tests := [("Raising", Samples.raising_test);
                ("Service Connectivity", fun _ => test_service_connectivity)] in
  let run := run_tests tests Samples.tester Samples.mac_services_down in
  let n := Z.of_nat (length tests) in
  let t := Samples.tester in
  let t' := run.1.1 in
  (is_apple_silicon t' = is_apple_silicon t
   /\ total_tests t' = (total_tests t + n)%Z
   /\ (passed_tests t' + failed_tests t'
       = passed_tests t + failed_tests t + n)%Z
   /\ (passed_tests t <= passed_tests t')%Z
   /\ (failed_tests t <= failed_tests t')%Z
   /\ (failed_tests t' = failed_tests t
       <-> passed_tests t' = (passed_tests t + n)%Z)
   /\ (forall name, name ∈ map fst tests ->
       is_Some (results_get name (test_results t')))
   /\ (forall name, is_Some (results_get name (test_results t)) ->
       is_Some (results_get name (test_results t'))))
  /\ forall name f t0 w0 u w1 e,
       f (is_apple_silicon t0) tt
         (grown w0 [Out Plain (nl +:+ name); Out Plain (str_repeat "=" 50)])
       = (u, w1, Exc e) ->
       is_Exception e = true ->
       exists t1,
         run_test name f t0 w0
         = (t1, grown w1 [Out Error (name +:+ " FAILED with exception: "
                                     +:+ str_exn e)], Val false)
         /\ total_tests t1 = (total_tests t0 + 1)%Z
         /\ failed_tests t1 = (failed_tests t0 + 1)%Z
         /\ passed_tests t1 = passed_tests t0
         /\ results_get name (test_results t1)
            = Some ("FAILED: " +:+ str_exn e).
Proof.
  intros tests run n t t'.
  apply (run_tests_counts tests Samples.tester Samples.mac_services_down
           run.1.1 run.1.2).
  vm_compute. reflexivity.
Defined.

Lemma check_compose_files_cons {S} p rest g (s : S) w :
  check_compose_files (p :: rest) g s w =
  match files w !! p with
  | Some _ =>
      let r1 := spawn_result w (length (log w) + 1) (config_cmd p) in
      match r1 with
      | Exited rc _ =>
          check_compose_files rest true s
            (grown w [Out Success (p +:+ " exists"); Spawn (config_cmd p) r1;
                      if (rc =? 0)%Z then Out Success (p +:+ " is valid")
                      else Out Warning (p +:+ " has configuration issues")])
      | Raises CalledProcessError =>
          check_compose_files rest true s
            (grown w [Out Success (p +:+ " exists"); Spawn (config_cmd p) r1;
                      Out Warning (p +:+ " has configuration issues")])
      | Raises e =>
          (s, grown w [Out Success (p +:+ " exists"); Spawn (config_cmd p) r1],
           Exc e)
      end
  | None =>
      check_compose_files rest g s
        (grown w [Out Info (p +:+ " does not exist")])
  end.
Proof.
  cbn [check_compose_files].
  unfold mbind, Py_bind, bind, os_path_exists, print_success, print_error,
    print_warning, print_info, emit, try_except, subprocess_run.
  destruct (files w !! p) as [c|] eqn:Hp.
  - rewrite bool_decide_eq_true_2 by by eexists.
    rewrite spawn_result_grown, log_grown, length_app. cbn [length].
    cbn zeta.
    destruct (spawn_result w (length (log w) + 1) (config_cmd p))
      as [rc out|e]; cbn.
    + destruct (rc =? 0)%Z; cbn; by rewrite !grown_grown.
    + destruct e; cbn; by rewrite !grown_grown.
  - rewrite bool_decide_eq_false_2 by by intros [? [=]]. done.
Qed.

Lemma check_compose_files_spec {S} paths (s : S) : forall g w,
  exists evs r,
    check_compose_files paths g s w = (s, grown w evs, r)
    /\ fs_ops evs = [] /\ probes evs = []
    /\ r <> Exc CalledProcessError
    /\ forall b, r = Val b ->
         b = g || existsb (fun p => bool_decide (is_Some (files w !! p))) paths
         /\ map fst (spawns evs)
            = map config_cmd
                (filter (fun p => is_Some (files w !! p)) paths).
Proof.
  induction paths as [|p paths IH]; intros g w.
  - exists [], (Val g). rewrite grown_nil. split_and!; try done.
    intros b [= <-]. by rewrite orb_false_r.
  - rewrite check_compose_files_cons.
    destruct (files w !! p) as [c|] eqn:Hp.
    + cbn zeta.
      assert (Hgo : forall ev1 ev2 ev3,
        (forall a r, ev1 <> Spawn a r) -> (forall a r, ev3 <> Spawn a r) ->
        (forall op, ev1 <> FsOp op) -> (forall op, ev3 <> FsOp op) ->
        (forall u t r, ev1 <> UrlOpen u t r) -> (forall u t r, ev3 <> UrlOpen u t r) ->
        ev2 = Spawn (config_cmd p)
                (spawn_result w (length (log w) + 1) (config_cmd p)) ->
        exists evs r,
          check_compose_files paths true s (grown w [ev1; ev2; ev3])
          = (s, grown w evs, r)
          /\ fs_ops evs = [] /\ probes evs = []
          /\ r <> Exc CalledProcessError
          /\ forall b, r = Val b ->
               b = g || existsb (fun p => bool_decide (is_Some (files w !! p)))
                          (p :: paths)
               /\ map fst (spawns evs)
                  = map config_cmd
                      (filter (fun p => is_Some (files w !! p)) (p :: paths))).
      { intros ev1 ev2 ev3 N1 N3 F1 F3 U1 U3 ->.
        destruct (IH true (grown w [ev1; Spawn (config_cmd p)
                    (spawn_result w (length (log w) + 1) (config_cmd p)); ev3]))
          as (evs & r & -> & Hf & Hpr & Hne & Hb).
        rewrite grown_grown. eexists _, r. split; [reflexivity|].
        rewrite files_grown in Hb.
        unfold fs_ops, probes, spawns in *.
        rewrite !omap_app, Hf, Hpr.
        split_and!; [| |done|].
        - destruct ev1, ev3; try done;
            first [by edestruct F1|by edestruct F3].
        - destruct ev1, ev3; try done;
            first [by edestruct U1|by edestruct U3].
        - intros b Hr. destruct (Hb b Hr) as [-> Hs].
          cbn [existsb]. rewrite bool_decide_eq_true_2 by (rewrite Hp; by eexists).
          rewrite orb_true_r. split; [done|].
          rewrite filter_cons_True by (rewrite Hp; by eexists).
          rewrite map_app, Hs.
          destruct ev1, ev3; try done;
            first [by edestruct N1|by edestruct N3]. }
      destruct (spawn_result w (length (log w) + 1) (config_cmd p))
        as [rc out|e] eqn:Hr1.
      * destruct (rc =? 0)%Z; by apply Hgo.
      * destruct e; try (by apply Hgo);
          (eexists _, (Exc _); split; [reflexivity|]; split_and!; done).
    + destruct (IH g (grown w [Out Info (p +:+ " does not exist")]))
        as (evs & r & -> & Hf & Hpr & Hne & Hb).
      rewrite grown_grown. eexists _, r. split; [reflexivity|].
      rewrite files_grown in Hb.
      unfold fs_ops, probes, spawns in *. rewrite !omap_app, Hf, Hpr.
      split_and!; try done.
      intros b Hr. destruct (Hb b Hr) as [-> Hs].
      cbn [existsb]. rewrite bool_decide_eq_false_2 by (rewrite Hp; by intros [? [=]]).
      rewrite filter_cons_False by (rewrite Hp; by intros [? [=]]).
      by rewrite map_app, Hs.
Qed.

(** [test_docker_compose_files] passes exactly when at least one of the
    two compose files exists.  [docker compose config] is run for the files
    that exist, in order, and for no other; a file that does not validate
    gets a warning and does not change the verdict. *)
Theorem compose_files_verdict {S} (s : S) w :
  let paths := ["docker-compose.yaml"; "docker-compose.mac.yaml"] in
  exists evs r,
    test_docker_compose_files s w = (s, grown w evs, r)
    /\ fs_ops evs = [] /\ probes evs = []
    /\ r <> Exc CalledProcessError
    /\ forall b, r = Val b ->
         (b = true <-> exists p, p ∈ paths /\ is_Some (files w !! p))
         /\ map fst (spawns evs)
            = map config_cmd (filter (fun p => is_Some (files w !! p)) paths).
Proof.
  intros paths.
  destruct (check_compose_files_spec paths s false w)
    as (evs & r & H & Hf & Hp & Hne & Hb).
  exists evs, r. split_and!; try done.
  intros b Hr. destruct (Hb b Hr) as [-> Hs]. split; [|done].
  cbn [orb]. rewrite existsb_exists. split.
  - intros (p & Hin & Hdec). exists p. apply bool_decide_eq_true in Hdec.
    split; [by apply list_elem_of_In|done].
  - intros (p & Hin & Hsome). exists p.
    split; [by apply list_elem_of_In|by apply bool_decide_eq_true].
Qed.

End TestMacMore.

